(** * homebridge-rinnai-heater: the heater API and its temperature tables

    A shallow embedding of [src/rinnaiApi.ts] and [src/utils.ts]:
    the temperature scale mapper, the telemetry decoder, the one-slot state
    cache and the step-by-step convergence controller, followed by the
    properties proved about them. *)

From Stdlib Require Import ZArith QArith Qround Bool List String Ascii Lia Lqa.
Import ListNotations.

Local Open Scope Z_scope.

(** ** JavaScript values used by the code *)

Module JS.

(** A JavaScript [number].  Every finite double is a rational, and the code
    only compares numbers and subtracts the constant 3 (which is exact
    wherever the difference can be an index of the 11-entry table), so the
    finite values are kept as exact rationals. *)
Inductive number : Type :=
| NaN
| NegInfinity
| Finite (q : Q)
| PosInfinity.

Definition of_Z (z : Z) : number := Finite (inject_Z z).

(** [a === b] on numbers: [NaN] equals nothing. *)
Definition strict_eq (a b : number) : bool :=
  match a, b with
  | Finite x, Finite y => Qeq_bool x y
  | PosInfinity, PosInfinity => true
  | NegInfinity, NegInfinity => true
  | _, _ => false
  end.

(** SameValueZero, the comparison of [Array.prototype.includes]. *)
Definition same_value_zero (a b : number) : bool :=
  match a, b with
  | NaN, NaN => true
  | _, _ => strict_eq a b
  end.

(** [a < b]; any comparison with [NaN] is false. *)
Definition lt (a b : number) : bool :=
  match a, b with
  | NaN, _ | _, NaN => false
  | _, NegInfinity => false
  | NegInfinity, _ => true
  | PosInfinity, _ => false
  | Finite _, PosInfinity => true
  | Finite x, Finite y => negb (Qle_bool y x)
  end.

(** [a > b]. *)
Definition gt (a b : number) : bool := lt b a.

(** [a - b]. *)
Definition sub (a b : number) : number :=
  match a, b with
  | NaN, _ | _, NaN => NaN
  | PosInfinity, PosInfinity => NaN
  | NegInfinity, NegInfinity => NaN
  | PosInfinity, _ => PosInfinity
  | NegInfinity, _ => NegInfinity
  | Finite _, PosInfinity => NegInfinity
  | Finite _, NegInfinity => PosInfinity
  | Finite x, Finite y => Finite (x - y)
  end.

(** A value of type [number | undefined | null]; [None] is the absent value.
    The code only tests such values for truthiness, passes them on or
    compares them, and [undefined] and [null] behave alike in all three. *)
Definition maybe_number : Type := option number.

(** Truthiness of a [number | undefined]: [undefined], [0] and [NaN] are
    falsy. *)
Definition truthy (v : maybe_number) : bool :=
  match v with
  | None => false
  | Some NaN => false
  | Some (Finite q) => negb (Qeq_bool q 0)
  | Some _ => true
  end.

(** Comparisons where a side may be [undefined] (in the code an absent
    operand of [<] or [>] is always [undefined], never [null]): [undefined]
    converts to [NaN], so the comparison is false. *)
Definition to_number (v : maybe_number) : number :=
  match v with Some x => x | None => NaN end.

Definition lt_undef (a b : maybe_number) : bool := lt (to_number a) (to_number b).

Definition gt_undef (a b : maybe_number) : bool := gt (to_number a) (to_number b).

(** [a === b] where either side may be [undefined]/[null].  The code never
    compares two absent values. *)
Definition strict_eq_undef (a b : maybe_number) : bool :=
  match a, b with
  | Some x, Some y => strict_eq x y
  | _, _ => false
  end.

(** [arr.includes(x)]. *)
Definition includes (arr : list number) (x : number) : bool :=
  existsb (same_value_zero x) arr.

(** [arr.find((value, index) => p value index)], scanning from index [i]. *)
Fixpoint find_from (p : number -> nat -> bool) (arr : list number) (i : nat)
  : maybe_number :=
  match arr with
  | [] => None
  | x :: rest => if p x i then Some x else find_from p rest (S i)
  end.

Definition find (p : number -> nat -> bool) (arr : list number) : maybe_number :=
  find_from p arr 0.

(** [arr[i]] for a natural index: out of range is [undefined]. *)
Definition at_nat (arr : list number) (i : nat) : maybe_number := nth_error arr i.

(** [arr[idx]] for a number used as a property key: an element is found only
    for an integer index inside the array; a fractional, negative, infinite
    or [NaN] key names no element. *)
Definition at_number (arr : list number) (idx : number) : maybe_number :=
  match idx with
  | Finite q =>
      let n := Qfloor q in
      if Qeq_bool q (inject_Z n) && (0 <=? n) then nth_error arr (Z.to_nat n)
      else None
  | _ => None
  end.

(** *** Strings

    A string is the sequence of its code units; the embedding keeps the code
    units below 256, which covers the digits, signs, commas and white space
    the decoder looks at. *)

(** [s.split(',')]: an array with one more element than [s] has commas. *)
Fixpoint split_comma (s : string) : list string :=
  match s with
  | EmptyString => [EmptyString]
  | String c rest =>
      if Ascii.eqb c ","%char then EmptyString :: split_comma rest
      else match split_comma rest with
           | field :: fields => String c field :: fields
           | [] => [String c EmptyString]
           end
  end.

(** [fields.join(',')], the inverse of [split_comma]. *)
Fixpoint join_comma (fields : list string) : string :=
  match fields with
  | [] => EmptyString
  | [field] => field
  | field :: rest => field ++ String ","%char (join_comma rest)
  end.

Fixpoint comma_free (s : string) : bool :=
  match s with
  | EmptyString => true
  | String c rest => negb (Ascii.eqb c ","%char) && comma_free rest
  end.

(** A value of type [string | undefined], such as an array element. *)
Definition maybe_string : Type := option string.

(** [arr[i]] on an array of strings. *)
Definition at_index (arr : list string) (i : nat) : maybe_string := nth_error arr i.

(** [v === lit] for a string literal [lit]. *)
Definition strict_eq_string (v : maybe_string) (lit : string) : bool :=
  match v with
  | Some s => String.eqb s lit
  | None => false
  end.

(** ToString on a [string | undefined]. *)
Definition to_string (v : maybe_string) : string :=
  match v with
  | Some s => s
  | None => "undefined"%string
  end.

(** White space skipped by [parseInt]: TAB, LF, VT, FF, CR, SP and NBSP. *)
Definition is_white_space (c : ascii) : bool :=
  let n := nat_of_ascii c in
  existsb (Nat.eqb n) [9; 10; 11; 12; 13; 32; 160]%nat.

Fixpoint trim_start (s : string) : string :=
  match s with
  | String c rest => if is_white_space c then trim_start rest else s
  | EmptyString => s
  end.

Definition digit_value (c : ascii) : option Z :=
  let n := Z.of_nat (nat_of_ascii c) in
  if (48 <=? n) && (n <=? 57) then Some (n - 48) else None.

(** The value of the longest prefix of decimal digits, [acc] being the value
    read so far ([None]: no digit yet). *)
Fixpoint read_digits (s : string) (acc : option Z) : option Z :=
  match s with
  | String c rest =>
      match digit_value c with
      | Some d => read_digits rest (Some (10 * match acc with Some a => a | None => 0 end + d))
      | None => acc
      end
  | EmptyString => acc
  end.

(** [parseInt(v, 10)]: leading white space, an optional sign, then the
    longest run of decimal digits; [NaN] when there is no digit.  The
    integer is kept exact. *)
Definition parseInt (v : maybe_string) : number :=
  let s := trim_start (to_string v) in
  let '(sign, s) :=
    match s with
    | String "-" rest => (-1, rest)
    | String "+" rest => (1, rest)
    | _ => (1, s)
    end in
  match read_digits s None with
  | Some n => of_Z (sign * n)
  | None => NaN
  end.

End JS.

(** ** utils.ts *)

Module Utils.
Import JS.

Definition AVAILABLE_TEMPERATURES : list number :=
  map of_Z [35; 36; 37; 38; 39; 40; 41; 42; 43; 44; 45].

Definition RINNAI_STATE_TEMPERATURES : list number :=
  map of_Z [35; 36; 37; 38; 39; 40; 41; 42; 43; 44; 45].

(** [parseTargetTemperatureToRange]: the three assignments to
    [newTargetTemperature] are the three [let]s. *)
Definition parseTargetTemperatureToRange (temperature : number) : maybe_number :=
  let newTargetTemperature :=
    if includes AVAILABLE_TEMPERATURES temperature then Some temperature else None in
  let newTargetTemperature :=
    if negb (truthy newTargetTemperature) then
      (* Search for the next available temperature *)
      find (fun _ index =>
              let nextAvailable := at_nat AVAILABLE_TEMPERATURES (index + 1) in
              gt_undef nextAvailable (Some temperature))
           AVAILABLE_TEMPERATURES
    else newTargetTemperature in
  if negb (truthy newTargetTemperature) then
    let lowestTemp := at_nat AVAILABLE_TEMPERATURES 0 in
    let highestTemp :=
      at_nat AVAILABLE_TEMPERATURES (List.length AVAILABLE_TEMPERATURES - 1) in
    let newTargetTemperature :=
      if lt_undef (Some temperature) lowestTemp then lowestTemp else newTargetTemperature in
    let newTargetTemperature :=
      if gt_undef (Some temperature) highestTemp then highestTemp
      else newTargetTemperature in
    newTargetTemperature
  else newTargetTemperature.

(** [parseRinnaiTemperature]: [+rinnaiTemp] is the identity on a number. *)
Definition parseRinnaiTemperature (rinnaiTemp : number) : maybe_number :=
  let index := sub rinnaiTemp (of_Z 3) in
  at_number RINNAI_STATE_TEMPERATURES index.

End Utils.

(** ** rinnaiApi.ts *)

Module RinnaiApi.
Import JS Utils.

Local Open Scope string_scope.

Record RinnaiState : Type := {
  targetTemperature : maybe_number;
  isHeating : bool;
  isPoweredOn : bool
}.

Definition parseStateParams (stringifiedParams : string) : RinnaiState :=
  let params := split_comma stringifiedParams in
  let temperature := parseInt (at_index params 7) in
  let targetTemperature := parseRinnaiTemperature temperature in
  let isHeating := strict_eq_string (at_index params 2) "1" in
  let isPoweredOn := negb (strict_eq_string (at_index params 0) "11") in
  {| targetTemperature := targetTemperature;
     isHeating := isHeating;
     isPoweredOn := isPoweredOn |}.

(** What an HTTP request to the heater comes back with: the axios promise is
    rejected (no connection, time-out, a status that is not 2xx), or it
    resolves and [response.data] is the body. *)
Inductive response : Type :=
| Failure
| Data (body : string).

(** What the code throws: the rejection of a request, or [new Error(message)]. *)
Inductive exn : Type :=
| RequestFailed
| Error (message : string).

(** The three errors [setTargetTemperature] makes. *)
Definition could_not_find : exn :=
  Error "Could not find a target temperature for the requested value.".
Definition could_not_get : exn :=
  Error "Could not get current target temp from state, fail.".
Definition max_retries : exn := Error "Max number of retries reached.".

(** How a promise ends.  [Unsettled] is a recursion cut off by the fuel of
    the embedding. *)
Inductive outcome (A : Type) : Type :=
| Resolved (a : A)
| Rejected (e : exn)
| Unsettled.
Arguments Resolved {A} a.
Arguments Rejected {A} e.
Arguments Unsettled {A}.

Section WithDevice.

(** The heater behind [rinnaiApi]: a state and what it answers to a GET of
    a path. *)
Variable Device : Type.
Variable http_get : string -> Device -> response * Device.

(** The module-level variable [lastState], the heater, and the paths
    requested so far, oldest first. *)
Record World : Type := {
  lastState : option RinnaiState;
  device : Device;
  requests : list string
}.

(** The world after a request to [url] that left the heater in [d], with
    [cache] in [lastState]. *)
Definition after_request (w : World) (url : string) (d : Device)
    (cache : option RinnaiState) : World :=
  {| lastState := cache; device := d; requests := requests w ++ [url] |}.

(** One asynchronous operation runs from a world to an outcome and a world;
    the embedding runs one operation at a time. *)
Definition M (A : Type) : Type := World -> outcome A * World.

Definition ret {A} (a : A) : M A := fun w => (Resolved a, w).

Definition throw {A} (e : exn) : M A := fun w => (Rejected e, w).

Definition bind {A B} (m : M A) (k : A -> M B) : M B :=
  fun w =>
    match m w with
    | (Resolved a, w') => k a w'
    | (Rejected e, w') => (Rejected e, w')
    | (Unsettled, w') => (Unsettled, w')
    end.

Notation "x <- m ;; k" := (bind m (fun x => k))
  (at level 61, m at next level, right associativity).
Notation "m ;;; k" := (bind m (fun _ => k))
  (at level 61, right associativity).

Definition get_lastState : M (option RinnaiState) := fun w => (Resolved (lastState w), w).

Definition set_lastState (st : RinnaiState) : M unit :=
  fun w => (Resolved tt,
            {| lastState := Some st; device := device w; requests := requests w |}).

(** [await rinnaiApi(url)], giving [response.data]. *)
Definition rinnaiApi (url : string) : M string :=
  fun w =>
    let '(r, d) := http_get url (device w) in
    let w' := after_request w url d (lastState w) in
    match r with
    | Failure => (Rejected RequestFailed, w')
    | Data body => (Resolved body, w')
    end.

Definition getState (ignoreCache : bool) : M RinnaiState :=
  cached <- get_lastState ;;
  match cached, ignoreCache with
  | Some st, false => ret st
  | _, _ =>
      response <- rinnaiApi "tela_" ;;
      let st := parseStateParams response in
      set_lastState st ;;;
      ret st
  end.

Definition pressButton (button : string) : M RinnaiState :=
  response <- rinnaiApi button ;;
  let params := parseStateParams response in
  set_lastState params ;;;
  ret params.

(** [setPowerState] returns the literal [true] or [lastState]. *)
Inductive power_result : Type :=
| ReturnedTrue
| ReturnedState (st : option RinnaiState).

Definition setPowerState (turnOn : bool) : M power_result :=
  st <- getState false ;;
  if Bool.eqb (isPoweredOn st) turnOn then ret ReturnedTrue
  else
    response <- rinnaiApi "/lig" ;;
    let state := parseStateParams response in
    set_lastState state ;;;
    last <- get_lastState ;;
    ret (ReturnedState last).

(** How the [try] block of [setTargetTemperature] ends when nothing is
    thrown: with [return lastState], or with the tail call
    [return setTargetTemperature(target, 0, currentTargetTemp)].  The tail
    call is returned without [await], so what it throws is not caught by the
    [catch] of the calling frame. *)
Inductive try_end : Type :=
| ReturnLastState (st : option RinnaiState)
| CallAgain (currentTargetTemp : maybe_number).

Definition try_block (target : number) (lastTargetTemp : maybe_number) : M try_end :=
  let targetTemperatureInRange := parseTargetTemperatureToRange target in
  if negb (truthy targetTemperatureInRange) then
    throw (Error "Could not find a target temperature for the requested value.")
  else
    let currentTargetTemp := if truthy lastTargetTemp then lastTargetTemp else None in
    currentTargetTemp <-
      (if negb (truthy lastTargetTemp) then
         st <- getState true ;;
         ret (targetTemperature st)
       else ret currentTargetTemp) ;;
    if negb (truthy currentTargetTemp) then
      throw (Error "Could not get current target temp from state, fail.")
    else if strict_eq_undef targetTemperatureInRange currentTargetTemp then
      last <- get_lastState ;;
      ret (ReturnLastState last)
    else
      let operation :=
        if gt_undef currentTargetTemp targetTemperatureInRange then "dec" else "inc" in
      response <- rinnaiApi operation ;;
      let parsedParams := parseStateParams response in
      set_lastState parsedParams ;;;
      let currentTargetTemp := targetTemperature parsedParams in
      (* We reached the target temperature, stop calling the increase API *)
      if strict_eq_undef targetTemperatureInRange currentTargetTemp then
        last <- get_lastState ;;
        ret (ReturnLastState last)
      else
        (* await delay(100) *)
        ret (CallAgain currentTargetTemp).

(** [setTargetTemperature(target, retries, lastTargetTemp)].  Each recursive
    call takes one unit of [fuel]. *)
Fixpoint setTargetTemperature (fuel : nat) (target : number) (retries : Z)
    (lastTargetTemp : maybe_number) : M (option RinnaiState) :=
  fun w =>
    match fuel with
    | O => (Unsettled, w)
    | S fuel' =>
        match try_block target lastTargetTemp w with
        | (Resolved (ReturnLastState st), w') => (Resolved st, w')
        | (Resolved (CallAgain currentTargetTemp), w') =>
            setTargetTemperature fuel' target 0%Z currentTargetTemp w'
        | (Rejected e, w') =>
            if (retries <? 5)%Z then
              setTargetTemperature fuel' target (retries + 1)%Z lastTargetTemp w'
            else (Rejected (Error "Max number of retries reached."), w')
        | (Unsettled, w') => (Unsettled, w')
        end
    end.

End WithDevice.

Arguments lastState {Device} w.
Arguments device {Device} w.
Arguments requests {Device} w.

End RinnaiApi.

(** ** Heaters to run the code against *)

Module Heaters.
Import JS Utils RinnaiApi.

Local Open Scope string_scope.

(** A heater that answers every request: [index] is the raw value of
    field 7, [power] and [heating] are behind fields 0 and 2. *)
Record heater : Type := {
  index : Z;
  power : bool;
  heating : bool
}.

Definition digit (n : Z) : ascii := ascii_of_nat (48 + Z.to_nat n).

(** Decimal digits of a raw index between 0 and 99. *)
Definition decimal (n : Z) : string :=
  if (n <? 10)%Z then String (digit n) ""
  else String (digit (n / 10)) (String (digit (n mod 10)) "").

(** The [tela_] line of a heater. *)
Definition line (h : heater) : string :=
  (if power h then "10" else "11") ++ ",0," ++
  (if heating h then "1" else "0") ++ ",0,0,0,0," ++ decimal (index h) ++ ",0".

(** [inc] and [dec] move the raw index by one inside 3..13, [/lig] flips the
    power, and every answer is the line of the new state. *)
Definition heater_get (url : string) (h : heater) : response * heater :=
  let h' :=
    if url =? "inc" then
      {| index := Z.min 13 (index h + 1); power := power h; heating := heating h |}
    else if url =? "dec" then
      {| index := Z.max 3 (index h - 1); power := power h; heating := heating h |}
    else if url =? "/lig" then
      {| index := index h; power := negb (power h); heating := heating h |}
    else h in
  (Data (line h'), h').

(** A heater behind a bad link: the first [n] requests fail. *)
Definition flaky_get (url : string) (d : nat * heater) : response * (nat * heater) :=
  match d with
  | (S n, h) => (Failure, (n, h))
  | (O, h) => let '(r, h') := heater_get url h in (r, (O, h'))
  end.

(** A device that answers every request with the same body. *)
Definition canned_get (body : string) (url : string) (d : unit) : response * unit :=
  (Data body, tt).

(** How often [url] occurs in a list of requested paths. *)
Definition count_requests (url : string) (l : list string) : nat :=
  count_occ string_dec l url.

(** The world at start-up: nothing cached, nothing requested. *)
Definition boot {Device : Type} (d : Device) : World Device :=
  {| lastState := None; device := d; requests := [] |}.

Definition heater_at (i : Z) : heater :=
  {| index := i; power := true; heating := false |}.

(** *** What the convergence controller assumes of a heater *)

Section DeviceModel.

Context {Device : Type} (http_get : string -> Device -> response * Device).

(** [temp d] is the target temperature (Celsius) the heater holds in state
    [d].  The heater answers [url] with a line that decodes to target
    temperature [t], and then holds [t]. *)
Definition answers_with (temp : Device -> Z) (url : string) (d : Device) (t : Z) : Prop :=
  exists (body : string) (d' : Device),
    http_get url d = (Data body, d') /\
    targetTemperature (parseStateParams body) = Some (of_Z t) /\
    temp d' = t.

(** Every read reports the target temperature, and every [inc] and [dec]
    succeeds and moves it by exactly one supported unit. *)
Definition unit_step_heater (temp : Device -> Z) : Prop :=
  (forall d, (35 <= temp d <= 45)%Z -> answers_with temp "tela_" d (temp d)) /\
  (forall d, (35 <= temp d < 45)%Z -> answers_with temp "inc" d (temp d + 1)%Z) /\
  (forall d, (35 < temp d <= 45)%Z -> answers_with temp "dec" d (temp d - 1)%Z).



End DeviceModel.

(** The step the controller takes from [current] towards [desired]. *)
Definition operation (desired current : maybe_number) : string :=
  if gt_undef current desired then "dec" else "inc".

End Heaters.

(** ** platformAccessory.ts *)

Module PlatformAccessory.
Import JS Utils RinnaiApi.

Local Open Scope string_scope.

Section WithPlatform.

Variable Device : Type.
Variable http_get : string -> Device -> response * Device.

(** The constants of [this.platform.Characteristic] belong to the homebridge
    library; the accessory only passes them on. *)
Variable hap : Type.
Variables Active_ACTIVE Active_INACTIVE : hap.
Variables TargetHeatingCoolingState_HEAT TargetHeatingCoolingState_OFF : hap.
Variables CurrentHeatingCoolingState_HEAT CurrentHeatingCoolingState_OFF : hap.

(** The field [currentState] of the accessory, and the values it has pushed
    with [statusService.updateCharacteristic(Active, ...)], oldest first. *)
Record accessory : Type := {
  currentState : option RinnaiState;
  active_updates : list hap
}.

Definition getCurrentHeatingCoolingState (state : RinnaiState) : hap :=
  if isHeating state then TargetHeatingCoolingState_HEAT
  else TargetHeatingCoolingState_OFF.

Definition getCurrentActiveState (state : RinnaiState) : hap :=
  if isHeating state then Active_ACTIVE else Active_INACTIVE.

Definition handleCurrentActiveState : M Device hap :=
  bind Device (getState Device http_get false) (fun state =>
  ret Device (getCurrentActiveState state)).

Definition handleCurrentHeatingState : M Device hap :=
  bind Device (getState Device http_get false) (fun state =>
  ret Device (if isHeating state then TargetHeatingCoolingState_HEAT
              else TargetHeatingCoolingState_OFF)).

Definition handleCurrentHeatingCoolingStateGet : M Device hap :=
  bind Device (getState Device http_get false) (fun state =>
  ret Device (if isPoweredOn state then CurrentHeatingCoolingState_HEAT
              else CurrentHeatingCoolingState_OFF)).

Definition handleCurrentTemperatureGet : M Device maybe_number :=
  bind Device (getState Device http_get false) (fun state =>
  ret Device (targetTemperature state)).

(** One pass of [pollForStateUpdates], up to the timer: the [try] block, whose
    [catch] only logs.  The calls into the homebridge library are taken not
    to throw. *)
Definition poll_once (a : accessory) (w : World Device) : accessory * World Device :=
  match getState Device http_get true w with
  | (Resolved newState, w') =>
      let updates :=
        match currentState a with
        | None => (active_updates a ++ [getCurrentActiveState newState])%list
        | Some current =>
            if negb (Bool.eqb (isHeating newState) (isHeating current))
            then (active_updates a ++ [getCurrentActiveState newState])%list
            else active_updates a
        end in
      ({| currentState := Some newState; active_updates := updates |}, w')
  | (_, w') => (a, w')
  end.

(** [pollForStateUpdates] calls itself after every pass; [passes] is how
    many passes the embedding runs. *)
Fixpoint pollForStateUpdates (passes : nat) (a : accessory) (w : World Device)
  : accessory * World Device :=
  match passes with
  | O => (a, w)
  | S passes' =>
      let '(a', w') := poll_once a w in
      pollForStateUpdates passes' a' w'
  end.

End WithPlatform.

Arguments currentState {hap} a.
Arguments active_updates {hap} a.

(** The accessory as the constructor leaves it. *)
Definition new_accessory {hap : Type} : accessory hap :=
  {| currentState := None; active_updates := [] |}.

End PlatformAccessory.

(** ** Notions the further properties are stated with *)

Module Models.
Import JS Utils RinnaiApi.

Local Open Scope string_scope.

(** The floor of [q], brought into 35..45. *)
Definition clamp_floor (q : Q) : Z := Z.max 35 (Z.min 45 (Qfloor q)).

(** A state whose target temperature is absent or one of 35..45. *)
Definition supported_state (st : RinnaiState) : Prop :=
  match targetTemperature st with
  | None => True
  | Some t => exists k : Z, (35 <= k <= 45)%Z /\ t = of_Z k
  end.

(** The cache is empty or holds a supported state. *)
Definition cache_ok {Device : Type} (w : World Device) : Prop :=
  match lastState w with
  | None => True
  | Some st => supported_state st
  end.

(** The paths the convergence controller may request. *)
Definition read_or_step (url : string) : Prop :=
  url = "tela_" \/ url = "inc" \/ url = "dec".

(** What a run of the convergence controller may do to a world: append
    requests for reads and steps, and leave the cache or put a decoded
    answer into it. *)
Definition controller_effect {Device : Type} (w w' : World Device) : Prop :=
  exists new : list string,
    requests w' = (requests w ++ new)%list /\
    Forall read_or_step new /\
    (lastState w' = lastState w \/
     exists body : string, lastState w' = Some (parseStateParams body)).

Section HeaterKinds.

Context {Device : Type} (http_get : string -> Device -> response * Device).


(** Whether one of the next [n] reads is answered. *)
Fixpoint read_answered_within (n : nat) (d : Device) : bool :=
  match n with
  | O => false
  | S n' =>
      match http_get "tela_" d with
      | (Data _, _) => true
      | (Failure, d') => read_answered_within n' d'
      end
  end.

(** Every answer to a read reports the heating flag [h]. *)
Definition constant_heating (h : bool) : Prop :=
  forall (d d' : Device) (body : string),
    http_get "tela_" d = (Data body, d') -> isHeating (parseStateParams body) = h.

End HeaterKinds.

End Models.

Import JS Utils RinnaiApi Heaters.

(** * Properties *)

Local Open Scope string_scope.
Local Open Scope Z_scope.
Local Open Scope list_scope.

(** ** Numbers *)

Lemma Qeq_bool_inject_Z (a b : Z) : Qeq_bool (inject_Z a) (inject_Z b) = (a =? b).
Proof. unfold Qeq_bool, inject_Z; simpl. rewrite !Z.mul_1_r. reflexivity. Qed.

Lemma Qle_bool_inject_Z (a b : Z) : Qle_bool (inject_Z a) (inject_Z b) = (a <=? b).
Proof. unfold Qle_bool, inject_Z; simpl. rewrite !Z.mul_1_r. reflexivity. Qed.

Lemma strict_eq_of_Z (a b : Z) : strict_eq (of_Z a) (of_Z b) = (a =? b).
Proof. apply Qeq_bool_inject_Z. Qed.

Lemma lt_of_Z (a b : Z) : lt (of_Z a) (of_Z b) = (a <? b).
Proof.
  unfold lt, of_Z. rewrite Qle_bool_inject_Z.
  rewrite Z.ltb_antisym. reflexivity.
Qed.

Lemma truthy_of_Z (a : Z) : truthy (Some (of_Z a)) = negb (a =? 0).
Proof. unfold truthy, of_Z. change 0%Q with (inject_Z 0). now rewrite Qeq_bool_inject_Z. Qed.

Lemma Qeq_bool_false (a b : Q) : ~ a == b -> Qeq_bool a b = false.
Proof.
  intros H. destruct (Qeq_bool a b) eqn:E; [|reflexivity].
  apply Qeq_bool_iff in E. contradiction.
Qed.

Lemma Qle_bool_false (a b : Q) : (b < a)%Q -> Qle_bool a b = false.
Proof.
  intros H. destruct (Qle_bool a b) eqn:E; [|reflexivity].
  apply Qle_bool_iff in E. lra.
Qed.

Lemma Qle_bool_true (a b : Q) : (a <= b)%Q -> Qle_bool a b = true.
Proof. apply Qle_bool_iff. Qed.

Lemma Qeq_bool_true (a b : Q) : a == b -> Qeq_bool a b = true.
Proof. apply Qeq_bool_iff. Qed.

(** ** The temperature scale mapper *)

Example parseTarget_37 : parseTargetTemperatureToRange (of_Z 37) = Some (of_Z 37).
Proof. reflexivity. Qed.

Example parseTarget_36_5 :
  parseTargetTemperatureToRange (Finite (73 # 2)) = Some (of_Z 36).
Proof. reflexivity. Qed.

Example parseTarget_low : parseTargetTemperatureToRange (of_Z 10) = Some (of_Z 35).
Proof. reflexivity. Qed.

Example parseTarget_high : parseTargetTemperatureToRange (of_Z 60) = Some (of_Z 45).
Proof. reflexivity. Qed.

Example parseTarget_NaN : parseTargetTemperatureToRange NaN = None.
Proof. reflexivity. Qed.

Example parseRinnai_6 : parseRinnaiTemperature (of_Z 6) = Some (of_Z 38).
Proof. reflexivity. Qed.

Example parseInt_examples :
  parseInt (Some " 12px") = of_Z 12 /\ parseInt (Some "-7") = of_Z (-7) /\
  parseInt (Some "") = NaN /\ parseInt (Some "x1") = NaN /\ parseInt None = NaN.
Proof. repeat split. Qed.

Example split_comma_examples :
  split_comma "" = [""] /\ split_comma "a,,b," = ["a"; ""; "b"; ""].
Proof. split; reflexivity. Qed.

Ltac unfold_mapper :=
  cbv [parseTargetTemperatureToRange includes AVAILABLE_TEMPERATURES map existsb
       same_value_zero strict_eq of_Z find find_from at_nat nth_error gt_undef
       lt_undef gt lt to_number truthy List.length Nat.add Nat.sub inject_Z].

Ltac settle_tests :=
  repeat match goal with
    | |- context [Qeq_bool ?a ?b] =>
        first [ rewrite (Qeq_bool_false a b) by (intro; lra)
              | rewrite (Qeq_bool_true a b) by lra ]
    | |- context [Qle_bool ?a ?b] =>
        first [ rewrite (Qle_bool_false a b) by lra
              | rewrite (Qle_bool_true a b) by lra ]
    end.


Ltac run_mapper :=
  unfold_mapper;
  repeat first [progress settle_tests | progress cbv beta iota delta [orb negb]];
  reflexivity.

Lemma mapper_below (q : Q) : (q < 35)%Q ->
  parseTargetTemperatureToRange (Finite q) = Some (of_Z 35).
Proof. intros H. run_mapper. Qed.

Lemma mapper_above (q : Q) : (45 < q)%Q ->
  parseTargetTemperatureToRange (Finite q) = Some (of_Z 45).
Proof. intros H. run_mapper. Qed.

Lemma table_cases (k : Z) : 35 <= k <= 45 ->
  k = 35 \/ k = 36 \/ k = 37 \/ k = 38 \/ k = 39 \/ k = 40 \/ k = 41 \/
  k = 42 \/ k = 43 \/ k = 44 \/ k = 45.
Proof. lia. Qed.

Ltac each_entry k H :=
  apply table_cases in H;
  repeat (destruct H as [H|H]; [subst k|]); try subst k.

Lemma mapper_between (k : Z) (q : Q) : 35 <= k < 45 ->
  (inject_Z k < q)%Q -> (q < inject_Z (k + 1))%Q ->
  parseTargetTemperatureToRange (Finite q) = Some (of_Z k).
Proof.
  intros Hk Hlo Hhi.
  assert (Hk' : 35 <= k <= 45) by lia.
  each_entry k Hk'; try lia;
    cbv [inject_Z Z.add Pos.add Pos.succ] in Hlo, Hhi;
    run_mapper.
Qed.

Lemma mapper_supported (k : Z) (q : Q) : 35 <= k <= 45 -> q == inject_Z k ->
  parseTargetTemperatureToRange (Finite q) = Some (Finite q).
Proof.
  intros Hk Hq.
  each_entry k Hk; cbv [inject_Z] in Hq;
    run_mapper.
Qed.

Lemma mapper_finite (q : Q) :
  exists (k : Z) (y : number),
    35 <= k <= 45 /\ parseTargetTemperatureToRange (Finite q) = Some y /\
    strict_eq y (of_Z k) = true.
Proof.
  destruct (Qlt_le_dec q 35) as [Hlo|Hlo].
  { exists 35, (of_Z 35). rewrite mapper_below by assumption. repeat split; lia. }
  destruct (Qlt_le_dec 45 q) as [Hhi|Hhi].
  { exists 45, (of_Z 45). rewrite mapper_above by assumption. repeat split; lia. }
  pose proof (Qfloor_le q) as Hfl.
  pose proof (Qlt_floor q) as Hfu.
  assert (Hk : 35 <= Qfloor q <= 45).
  { split.
    - change 35 with (Qfloor (inject_Z 35)). now apply Qfloor_resp_le.
    - change 45 with (Qfloor (inject_Z 45)). now apply Qfloor_resp_le. }
  destruct (Qeq_dec q (inject_Z (Qfloor q))) as [Heq|Hne].
  - exists (Qfloor q), (Finite q).
    rewrite (mapper_supported (Qfloor q)) by assumption.
    repeat split; try lia. now apply Qeq_bool_true.
  - assert (Hlt : (inject_Z (Qfloor q) < q)%Q).
    { destruct (Qle_lt_or_eq _ _ Hfl) as [H|H]; [assumption|]. symmetry in H. contradiction. }
    assert (Hk45 : Qfloor q < 45).
    { destruct (Z.eq_dec (Qfloor q) 45) as [E|E]; [|lia].
      rewrite E in Hlt. change (inject_Z 45) with 45%Q in Hlt. lra. }
    exists (Qfloor q), (of_Z (Qfloor q)).
    rewrite (mapper_between (Qfloor q)) by (assumption || lia).
    rewrite strict_eq_of_Z, Z.eqb_refl. repeat split; lia.
Qed.

(** C4: [parseTargetTemperatureToRange] returns a requested value that is
    one of the supported values 35..45 as it is; a value strictly between two
    neighbouring supported values [k] and [k + 1] goes down to [k]; every
    value below 35 (minus infinity too) gives 35 and every value above 45
    (plus infinity too) gives 45. *)
Theorem parseTargetTemperatureToRange_cases :
  (forall (k : Z) (q : Q), 35 <= k <= 45 -> q == inject_Z k ->
     parseTargetTemperatureToRange (Finite q) = Some (Finite q)) /\
  (forall (k : Z) (q : Q), 35 <= k < 45 ->
     (inject_Z k < q)%Q /\ (q < inject_Z (k + 1))%Q ->
     parseTargetTemperatureToRange (Finite q) = Some (of_Z k)) /\
  (forall q : Q, (q < 35)%Q ->
     parseTargetTemperatureToRange (Finite q) = Some (of_Z 35)) /\
  parseTargetTemperatureToRange NegInfinity = Some (of_Z 35) /\
  (forall q : Q, (45 < q)%Q ->
     parseTargetTemperatureToRange (Finite q) = Some (of_Z 45)) /\
  parseTargetTemperatureToRange PosInfinity = Some (of_Z 45).
Proof.
  repeat split.
  - apply mapper_supported.
  - intros k q Hk [Hlo Hhi]. now apply mapper_between.
  - apply mapper_below.
  - apply mapper_above.
Qed.

Lemma parseTargetTemperatureToRange_cases_witness :
  parseTargetTemperatureToRange (Finite (80 # 2)) = Some (Finite (80 # 2)) /\
  parseTargetTemperatureToRange (Finite (73 # 2)) = Some (of_Z 36) /\
  parseTargetTemperatureToRange (Finite (1 # 3)) = Some (of_Z 35) /\
  parseTargetTemperatureToRange (Finite (451 # 10)) = Some (of_Z 45).
Proof.
  destruct parseTargetTemperatureToRange_cases as (Hsup & Hbetween & Hlow & _ & Hhigh & _).
  refine (conj _ (conj _ (conj _ _))).
  - apply (Hsup 40); [lia | reflexivity].
  - apply (Hbetween 36); [lia | split; reflexivity].
  - apply Hlow; reflexivity.
  - apply Hhigh; reflexivity.
Defined.

Lemma mapper_not_NaN (x : number) :
  x <> NaN ->
  exists (k : Z) (y : number),
    35 <= k <= 45 /\ parseTargetTemperatureToRange x = Some y /\
    strict_eq y (of_Z k) = true.
Proof.
  intros Hx. destruct x as [| |q|].
  - contradiction.
  - exists 35, (of_Z 35). repeat split; lia.
  - apply mapper_finite.
  - exists 45, (of_Z 45). repeat split; lia.
Qed.

(** C10: for every input other than [NaN], [parseTargetTemperatureToRange]
    returns a number equal to one of 35, 36, ..., 45; the [undefined] outcome
    is not reached. *)
Theorem parseTargetTemperatureToRange_supported (x : number) :
  x <> NaN ->
  (exists (k : Z) (y : number),
     35 <= k <= 45 /\ parseTargetTemperatureToRange x = Some y /\
     strict_eq y (of_Z k) = true) /\
  parseTargetTemperatureToRange x <> None.
Proof.
  intros Hx. destruct (mapper_not_NaN x Hx) as (k & y & Hk & Hmap & Hy).
  split; [now exists k, y|]. rewrite Hmap. discriminate.
Qed.

Lemma parseTargetTemperatureToRange_supported_witness :
  (exists (k : Z) (y : number),
     35 <= k <= 45 /\ parseTargetTemperatureToRange (Finite (73 # 2)) = Some y /\
     strict_eq y (of_Z k) = true) /\
  parseTargetTemperatureToRange (Finite (73 # 2)) <> None.
Proof. apply parseTargetTemperatureToRange_supported. discriminate. Defined.

(** ** The device index table *)

Lemma at_number_integer (arr : list number) (q : Q) (m : Z) :
  q == inject_Z m ->
  at_number arr (Finite q) = if 0 <=? m then nth_error arr (Z.to_nat m) else None.
Proof.
  intros Hq. unfold at_number.
  assert (Hfl : Qfloor q = m) by (rewrite Hq; apply Qfloor_Z).
  rewrite Hfl, (Qeq_bool_true q (inject_Z m)) by assumption.
  reflexivity.
Qed.

Lemma at_number_some (arr : list number) (q : Q) (y : number) :
  at_number arr (Finite q) = Some y ->
  exists m : Z, q == inject_Z m /\ 0 <= m < Z.of_nat (List.length arr).
Proof.
  unfold at_number. intros H.
  destruct (Qeq_bool q (inject_Z (Qfloor q))) eqn:Eq; [|discriminate].
  destruct (0 <=? Qfloor q) eqn:Epos; [|discriminate].
  simpl in H. exists (Qfloor q). split.
  - now apply Qeq_bool_iff.
  - apply Z.leb_le in Epos.
    assert (Hn : (Z.to_nat (Qfloor q) < List.length arr)%nat).
    { apply nth_error_Some. rewrite H. discriminate. }
    lia.
Qed.

Lemma parseRinnaiTemperature_of_Z (n : Z) :
  parseRinnaiTemperature (of_Z n) =
    if 0 <=? n - 3 then at_nat RINNAI_STATE_TEMPERATURES (Z.to_nat (n - 3)) else None.
Proof.
  unfold parseRinnaiTemperature, of_Z, sub, at_nat.
  apply at_number_integer.
  unfold Z.sub. rewrite inject_Z_plus, inject_Z_opp. reflexivity.
Qed.

Lemma parseRinnaiTemperature_in_table (n : Z) :
  3 <= n <= 13 -> parseRinnaiTemperature (of_Z n) = Some (of_Z (35 + (n - 3))).
Proof.
  intros Hn. rewrite parseRinnaiTemperature_of_Z.
  assert (Hk : 35 <= n + 32 <= 45) by lia.
  apply table_cases in Hk.
  repeat (destruct Hk as [Hk|Hk];
          [replace n with (n + 32 - 32) by lia; rewrite Hk; reflexivity|]).
  replace n with (n + 32 - 32) by lia; rewrite Hk; reflexivity.
Qed.

Lemma parseRinnaiTemperature_outside (x : number) :
  (forall n : Z, 3 <= n <= 13 -> strict_eq x (of_Z n) = false) ->
  parseRinnaiTemperature x = None.
Proof.
  intros Hout.
  destruct (parseRinnaiTemperature x) as [y|] eqn:E; [exfalso|reflexivity].
  unfold parseRinnaiTemperature in E.
  destruct x as [| |q|]; simpl in E; try discriminate.
  apply at_number_some in E. destruct E as (m & Hm & Hrange).
  change (Z.of_nat (List.length RINNAI_STATE_TEMPERATURES)) with 11 in Hrange.
  specialize (Hout (m + 3) ltac:(lia)).
  simpl in Hout. apply Qeq_bool_neq in Hout. apply Hout.
  rewrite inject_Z_plus. change (inject_Z 3) with 3%Q in *. lra.
Qed.

(** C5: [parseRinnaiTemperature] is the lookup of
    [RINNAI_STATE_TEMPERATURES] at position [rawIndex - 3]: a raw index [n]
    in 3..13 gives [35 + (n - 3)], so 3 gives 35 and 13 gives 45, and every
    number that is not one of the integers 3..13 gives no value. *)
Theorem parseRinnaiTemperature_table :
  (forall n : Z,
     parseRinnaiTemperature (of_Z n) =
       if 0 <=? n - 3 then at_nat RINNAI_STATE_TEMPERATURES (Z.to_nat (n - 3))
       else None) /\
  (forall n : Z, 3 <= n <= 13 ->
     parseRinnaiTemperature (of_Z n) = Some (of_Z (35 + (n - 3)))) /\
  parseRinnaiTemperature (of_Z 3) = Some (of_Z 35) /\
  parseRinnaiTemperature (of_Z 13) = Some (of_Z 45) /\
  (forall x : number,
     (forall n : Z, 3 <= n <= 13 -> strict_eq x (of_Z n) = false) ->
     parseRinnaiTemperature x = None).
Proof.
  split; [exact parseRinnaiTemperature_of_Z|].
  split; [exact parseRinnaiTemperature_in_table|].
  split; [reflexivity|].
  split; [reflexivity|].
  exact parseRinnaiTemperature_outside.
Qed.

Lemma parseRinnaiTemperature_table_witness :
  parseRinnaiTemperature (of_Z 6) = Some (of_Z (35 + (6 - 3))) /\
  parseRinnaiTemperature (of_Z 14) = None /\
  parseRinnaiTemperature (Finite (7 # 2)) = None /\
  parseRinnaiTemperature NaN = None.
Proof.
  destruct parseRinnaiTemperature_table as (_ & Hin & _ & _ & Hout).
  refine (conj _ (conj _ (conj _ _))).
  - apply Hin. lia.
  - apply Hout. intros n Hn. rewrite strict_eq_of_Z. apply Z.eqb_neq. lia.
  - apply Hout. intros n Hn. unfold strict_eq, of_Z.
    apply Qeq_bool_false. unfold Qeq, inject_Z. simpl. lia.
  - apply Hout. reflexivity.
Defined.

(** ** The telemetry decoder *)

Lemma split_comma_nonempty (s : string) : split_comma s <> [].
Proof.
  destruct s as [|c rest]; simpl; [discriminate|].
  destruct (Ascii.eqb c ","); [discriminate|].
  destruct (split_comma rest); discriminate.
Qed.

Lemma split_comma_append (f : string) (rest : string) :
  comma_free f = true ->
  split_comma (f ++ String "," rest)%string = f :: split_comma rest.
Proof.
  induction f as [|c f IH]; simpl; intros Hf; [reflexivity|].
  apply andb_true_iff in Hf. destruct Hf as [Hc Hf].
  apply negb_true_iff in Hc. rewrite Hc, (IH Hf). reflexivity.
Qed.

Lemma split_comma_single (f : string) : comma_free f = true -> split_comma f = [f].
Proof.
  induction f as [|c f IH]; simpl; intros Hf; [reflexivity|].
  apply andb_true_iff in Hf. destruct Hf as [Hc Hf].
  apply negb_true_iff in Hc. rewrite Hc, (IH Hf). reflexivity.
Qed.

(** Splitting the join of comma-free fields gives the fields back. *)
Lemma split_comma_join (fields : list string) :
  fields <> [] -> forallb comma_free fields = true ->
  split_comma (join_comma fields) = fields.
Proof.
  induction fields as [|f rest IH]; intros Hne Hfree; [contradiction|].
  simpl in Hfree. apply andb_true_iff in Hfree. destruct Hfree as [Hf Hrest].
  destruct rest as [|g rest].
  - simpl. now apply split_comma_single.
  - change (join_comma (f :: g :: rest)) with (f ++ String "," (join_comma (g :: rest)))%string.
    rewrite split_comma_append by assumption.
    rewrite IH; [reflexivity|discriminate|assumption].
Qed.

(** Every line is the join of its fields. *)
Lemma join_comma_split (s : string) : join_comma (split_comma s) = s.
Proof.
  induction s as [|c rest IH]; [reflexivity|].
  simpl. destruct (Ascii.eqb_spec c ",") as [->|Hc].
  - pose proof (split_comma_nonempty rest) as Hne.
    destruct (split_comma rest) as [|g gs] eqn:E; [contradiction|].
    change (join_comma ("" :: g :: gs)) with (String "," (join_comma (g :: gs))).
    now rewrite IH.
  - pose proof (split_comma_nonempty rest) as Hne.
    destruct (split_comma rest) as [|g gs] eqn:E; [contradiction|].
    destruct gs as [|g' gs].
    + simpl in *. now rewrite IH.
    + change (join_comma (String c g :: g' :: gs))
        with (String c (join_comma (g :: g' :: gs))).
      now rewrite IH.
Qed.

Lemma at_index_in_range (fields : list string) (i : nat) :
  (i < List.length fields)%nat -> exists f, at_index fields i = Some f.
Proof.
  intros Hi. unfold at_index.
  destruct (nth_error fields i) as [f|] eqn:E; [now exists f|].
  apply nth_error_None in E. lia.
Qed.

(** C6: on a line with at least 8 fields [parseStateParams] returns
    [isPoweredOn = (field 0 <> "11")], [isHeating = (field 2 = "1")] and
    [targetTemperature = parseRinnaiTemperature (parseInt field 7)]; the line
    ["10,x,1,x,x,x,x,6,x"] decodes to powered on, heating and the temperature
    of raw index 6; a line whose field 0 is ["11"] decodes to powered off
    whatever the other fields are. *)
Theorem parseStateParams_decodes :
  (forall line : string,
     (8 <= List.length (split_comma line))%nat ->
     exists field0 field2 field7 : string,
       at_index (split_comma line) 0 = Some field0 /\
       at_index (split_comma line) 2 = Some field2 /\
       at_index (split_comma line) 7 = Some field7 /\
       parseStateParams line =
         {| targetTemperature := parseRinnaiTemperature (parseInt (Some field7));
            isHeating := String.eqb field2 "1";
            isPoweredOn := negb (String.eqb field0 "11") |}) /\
  parseStateParams "10,x,1,x,x,x,x,6,x" =
    {| targetTemperature := parseRinnaiTemperature (of_Z 6);
       isHeating := true;
       isPoweredOn := true |} /\
  (forall line : string,
     at_index (split_comma line) 0 = Some "11" ->
     isPoweredOn (parseStateParams line) = false).
Proof.
  split; [|split].
  - intros line Hlen.
    destruct (at_index_in_range (split_comma line) 0 ltac:(lia)) as [f0 H0].
    destruct (at_index_in_range (split_comma line) 2 ltac:(lia)) as [f2 H2].
    destruct (at_index_in_range (split_comma line) 7 ltac:(lia)) as [f7 H7].
    exists f0, f2, f7. repeat (split; [assumption|]).
    unfold parseStateParams. rewrite H0, H2, H7. reflexivity.
  - reflexivity.
  - intros line H0. unfold parseStateParams. cbn [isPoweredOn]. rewrite H0. reflexivity.
Qed.

Lemma parseStateParams_decodes_witness :
  (exists field0 field2 field7 : string,
     at_index (split_comma "11,0,1,0,0,0,0,12,0,0") 0 = Some field0 /\
     at_index (split_comma "11,0,1,0,0,0,0,12,0,0") 2 = Some field2 /\
     at_index (split_comma "11,0,1,0,0,0,0,12,0,0") 7 = Some field7 /\
     parseStateParams "11,0,1,0,0,0,0,12,0,0" =
       {| targetTemperature := parseRinnaiTemperature (parseInt (Some field7));
          isHeating := String.eqb field2 "1";
          isPoweredOn := negb (String.eqb field0 "11") |}) /\
  isPoweredOn (parseStateParams "11,0,1,0,0,0,0,12,0,0") = false.
Proof.
  destruct parseStateParams_decodes as (Hfields & _ & Hoff).
  split.
  - apply Hfields. simpl. lia.
  - apply Hoff. reflexivity.
Defined.

(** A line with too few fields, or with a field 7 that holds no integer,
    decodes to a state without a target temperature. *)
Lemma parseRinnaiTemperature_NaN : parseRinnaiTemperature NaN = None.
Proof. reflexivity. Qed.

Lemma parseInt_undefined : parseInt None = NaN.
Proof. reflexivity. Qed.

Lemma parseStateParams_malformed (line : string) :
  (List.length (split_comma line) < 8)%nat \/
  parseInt (at_index (split_comma line) 7) = NaN ->
  targetTemperature (parseStateParams line) = None.
Proof.
  intros H.
  assert (HNaN : parseInt (at_index (split_comma line) 7) = NaN).
  { destruct H as [Hshort|H]; [|assumption].
    assert (E : at_index (split_comma line) 7 = None) by (apply nth_error_None; lia).
    rewrite E. reflexivity. }
  unfold parseStateParams. cbn [targetTemperature]. rewrite HNaN. reflexivity.
Qed.

(** ** The state cache *)

Arguments parseStateParams : simpl never.
Arguments parseTargetTemperatureToRange : simpl never.

Section CacheFacts.

Context {Device : Type} (http_get : string -> Device -> response * Device).

Local Abbreviation getState := (getState Device http_get).
Local Abbreviation pressButton := (pressButton Device http_get).
Local Abbreviation setPowerState := (setPowerState Device http_get).
Local Abbreviation setTargetTemperature := (setTargetTemperature Device http_get).
Local Abbreviation try_block := (try_block Device http_get).
Local Abbreviation rinnaiApi := (rinnaiApi Device http_get).
Local Abbreviation after_request := (after_request Device).

Lemma rinnaiApi_run (url : string) (w : World Device) :
  rinnaiApi url w =
    match http_get url (device w) with
    | (Failure, d) => (Rejected RequestFailed, after_request w url d (lastState w))
    | (Data body, d) => (Resolved body, after_request w url d (lastState w))
    end.
Proof.
  unfold RinnaiApi.rinnaiApi.
  destruct (http_get url (device w)) as [[|body] d]; reflexivity.
Qed.

Lemma getState_hit (w : World Device) (st : RinnaiState) :
  lastState w = Some st -> getState false w = (Resolved st, w).
Proof.
  intros H. unfold RinnaiApi.getState, bind, get_lastState. rewrite H. reflexivity.
Qed.

Lemma getState_fetch (ignoreCache : bool) (w : World Device) :
  lastState w = None \/ ignoreCache = true ->
  getState ignoreCache w =
    match http_get "tela_" (device w) with
    | (Failure, d) => (Rejected RequestFailed, after_request w "tela_" d (lastState w))
    | (Data body, d) =>
        (Resolved (parseStateParams body),
         after_request w "tela_" d (Some (parseStateParams body)))
    end.
Proof.
  intros H. unfold RinnaiApi.getState, bind at 1, get_lastState.
  assert (E : forall k : M Device RinnaiState,
             match lastState w, ignoreCache with
             | Some st, false => ret Device st
             | _, _ => k
             end = k).
  { intros k. destruct H as [-> | ->]; [reflexivity|]. now destruct (lastState w). }
  rewrite E. unfold bind. rewrite rinnaiApi_run.
  destruct (http_get "tela_" (device w)) as [[|body] d]; reflexivity.
Qed.

Lemma getState_resolved (ignoreCache : bool) (w w' : World Device) (st : RinnaiState) :
  getState ignoreCache w = (Resolved st, w') -> lastState w' = Some st.
Proof.
  destruct (lastState w) as [cached|] eqn:Hc; [destruct ignoreCache|].
  - rewrite getState_fetch by now right.
    destruct (http_get "tela_" (device w)) as [[|body] d]; [discriminate|].
    intros H; inversion H; reflexivity.
  - rewrite (getState_hit w cached Hc). intros H; inversion H; subst. assumption.
  - rewrite getState_fetch by now left.
    destruct (http_get "tela_" (device w)) as [[|body] d]; [discriminate|].
    intros H; inversion H; reflexivity.
Qed.

Lemma pressButton_resolved (button : string) (w w' : World Device) (st : RinnaiState) :
  pressButton button w = (Resolved st, w') -> lastState w' = Some st.
Proof.
  unfold RinnaiApi.pressButton, bind. rewrite rinnaiApi_run.
  destruct (http_get button (device w)) as [[|body] d]; [discriminate|].
  simpl. intros H; inversion H; reflexivity.
Qed.

Ltac case_split :=
  match goal with
  | |- context [match ?x with _ => _ end] =>
      lazymatch x with
      | context [match _ with _ => _ end] => fail
      | _ => destruct x eqn:?
      end
  end.

Lemma try_block_returns (target : number) (lastTargetTemp : maybe_number)
    (w w' : World Device) (st : option RinnaiState) :
  try_block target lastTargetTemp w = (Resolved (ReturnLastState st), w') ->
  lastState w' = st.
Proof.
  unfold RinnaiApi.try_block, RinnaiApi.getState, RinnaiApi.rinnaiApi,
    bind, ret, throw, get_lastState, set_lastState.
  repeat (case_split; try discriminate);
    intros H; inversion H; subst; reflexivity.
Qed.

Lemma setTargetTemperature_resolved (fuel : nat) (target : number) (retries : Z)
    (lastTargetTemp : maybe_number) (w w' : World Device) (st : option RinnaiState) :
  setTargetTemperature fuel target retries lastTargetTemp w = (Resolved st, w') ->
  lastState w' = st.
Proof.
  revert retries lastTargetTemp w.
  induction fuel as [|fuel IH]; intros retries lastTargetTemp w; simpl; [discriminate|].
  destruct (try_block target lastTargetTemp w) as [[[last|cur]|e|] w1] eqn:E.
  - intros H; inversion H; subst. eapply try_block_returns; eassumption.
  - apply IH.
  - destruct (retries <? 5)%Z; [apply IH|discriminate].
  - discriminate.
Qed.

Lemma setPowerState_resolved (turnOn : bool) (w w' : World Device) (st : RinnaiState) :
  setPowerState turnOn w = (Resolved (ReturnedState (Some st)), w') ->
  lastState w' = Some st.
Proof.
  unfold RinnaiApi.setPowerState, bind at 1.
  destruct (getState false w) as [[s|e|] w1]; try discriminate.
  destruct (Bool.eqb (isPoweredOn s) turnOn); [discriminate|].
  unfold bind, ret, get_lastState, set_lastState. rewrite rinnaiApi_run.
  destruct (http_get "/lig" (device w1)) as [[|body] d]; [discriminate|].
  simpl. intros H; inversion H; reflexivity.
Qed.

(** C8: with a state in the cache, [getState false] returns that state and
    leaves the world, the list of requests included, as it is; with an empty
    cache or with [ignoreCache = true] it makes the one request [tela_], and
    when the heater answers it decodes the body, stores the state in the
    cache and returns it (when the request fails the failure is thrown and
    the cache keeps its value); [getState true] always adds one [tela_]
    request; and after any operation that resolved with a state,
    [getState false] returns that very state without a request. *)
Theorem getState_cache :
  (forall (w : World Device) (st : RinnaiState),
     lastState w = Some st -> getState false w = (Resolved st, w)) /\
  (forall (ignoreCache : bool) (w : World Device),
     lastState w = None \/ ignoreCache = true ->
     getState ignoreCache w =
       match http_get "tela_" (device w) with
       | (Failure, d) =>
           (Rejected RequestFailed, after_request w "tela_" d (lastState w))
       | (Data body, d) =>
           (Resolved (parseStateParams body),
            after_request w "tela_" d (Some (parseStateParams body)))
       end) /\
  (forall w : World Device,
     requests (snd (getState true w)) = requests w ++ ["tela_"]) /\
  (forall (w w' : World Device) (st : RinnaiState),
     (exists ignoreCache, getState ignoreCache w = (Resolved st, w')) \/
     (exists button, pressButton button w = (Resolved st, w')) \/
     (exists turnOn, setPowerState turnOn w = (Resolved (ReturnedState (Some st)), w')) \/
     (exists fuel target retries lastTargetTemp,
        setTargetTemperature fuel target retries lastTargetTemp w
          = (Resolved (Some st), w')) ->
     getState false w' = (Resolved st, w')).
Proof.
  split; [exact getState_hit|].
  split; [exact getState_fetch|].
  split.
  - intros w. rewrite getState_fetch by now right.
    destruct (http_get "tela_" (device w)) as [[|body] d]; reflexivity.
  - intros w w' st H. apply getState_hit.
    destruct H as [[ic H]|[[button H]|[[turnOn H]|(fuel & target & retries & last & H)]]].
    + eapply getState_resolved; eassumption.
    + eapply pressButton_resolved; eassumption.
    + eapply setPowerState_resolved; eassumption.
    + eapply setTargetTemperature_resolved; eassumption.
Qed.

(** ** Power *)

Lemma getState_cases (ignoreCache : bool) (w : World Device) :
  (exists st, getState ignoreCache w = (Resolved st, w) /\ lastState w = Some st) \/
  (exists d, http_get "tela_" (device w) = (Failure, d) /\
     getState ignoreCache w =
       (Rejected RequestFailed, after_request w "tela_" d (lastState w))) \/
  (exists body d, http_get "tela_" (device w) = (Data body, d) /\
     getState ignoreCache w =
       (Resolved (parseStateParams body),
        after_request w "tela_" d (Some (parseStateParams body)))).
Proof.
  destruct (lastState w) as [cached|] eqn:Hc; [destruct ignoreCache|].
  2: { left. exists cached. split; [now apply getState_hit|reflexivity]. }
  all: right; rewrite getState_fetch by (now left + now right);
    rewrite ?Hc;
    destruct (http_get "tela_" (device w)) as [[|body] d];
    [left; exists d | right; exists body, d]; split; reflexivity.
Qed.

Lemma setPowerState_run (turnOn : bool) (w : World Device) :
  setPowerState turnOn w =
    match getState false w with
    | (Resolved st, w1) =>
        if Bool.eqb (isPoweredOn st) turnOn then (Resolved ReturnedTrue, w1)
        else
          match http_get "/lig" (device w1) with
          | (Failure, d) =>
              (Rejected RequestFailed, after_request w1 "/lig" d (lastState w1))
          | (Data body, d) =>
              (Resolved (ReturnedState (Some (parseStateParams body))),
               after_request w1 "/lig" d (Some (parseStateParams body)))
          end
    | (Rejected e, w1) => (Rejected e, w1)
    | (Unsettled, w1) => (Unsettled, w1)
    end.
Proof.
  unfold RinnaiApi.setPowerState, bind at 1.
  destruct (getState false w) as [[st|e|] w1]; try reflexivity.
  destruct (Bool.eqb (isPoweredOn st) turnOn); [reflexivity|].
  unfold bind, ret, get_lastState, set_lastState. rewrite rinnaiApi_run.
  destruct (http_get "/lig" (device w1)) as [[|body] d]; reflexivity.
Qed.

Lemma setPowerState_same (turnOn : bool) (w : World Device) (st : RinnaiState) :
  lastState w = Some st -> isPoweredOn st = turnOn ->
  setPowerState turnOn w = (Resolved ReturnedTrue, w).
Proof.
  intros Hc Hp. rewrite setPowerState_run, (getState_hit w st Hc), Hp, Bool.eqb_reflx.
  reflexivity.
Qed.

Lemma setPowerState_toggle (turnOn : bool) (w : World Device) (st : RinnaiState) :
  lastState w = Some st -> isPoweredOn st <> turnOn ->
  setPowerState turnOn w =
    match http_get "/lig" (device w) with
    | (Failure, d) => (Rejected RequestFailed, after_request w "/lig" d (Some st))
    | (Data body, d) =>
        (Resolved (ReturnedState (Some (parseStateParams body))),
         after_request w "/lig" d (Some (parseStateParams body)))
    end.
Proof.
  intros Hc Hp. rewrite setPowerState_run, (getState_hit w st Hc).
  apply Bool.eqb_false_iff in Hp. rewrite Hp, Hc. reflexivity.
Qed.

(** One call asks the heater at most once for its state and at most once to
    toggle: there is no second attempt. *)
Lemma setPowerState_requests (turnOn : bool) (w : World Device) :
  exists new : list string,
    requests (snd (setPowerState turnOn w)) = requests w ++ new /\
    (new = [] \/ new = ["tela_"] \/ new = ["/lig"] \/ new = ["tela_"; "/lig"]).
Proof.
  rewrite setPowerState_run.
  destruct (getState_cases false w)
    as [(st & -> & Hc)|[(d & Hd & ->)|(body & d & Hd & ->)]].
  - destruct (Bool.eqb (isPoweredOn st) turnOn).
    + exists []. split; [simpl; now rewrite app_nil_r|auto].
    + exists ["/lig"]. split; [|auto].
      destruct (http_get "/lig" (device w)) as [[|body] d]; reflexivity.
  - exists ["tela_"]. split; [reflexivity|auto].
  - destruct (Bool.eqb (isPoweredOn (parseStateParams body)) turnOn).
    + exists ["tela_"]. split; [reflexivity|auto].
    + exists ["tela_"; "/lig"]. split; [|auto 6].
      cbn [device after_request].
      destruct (http_get "/lig" d) as [[|body'] d']; simpl; now rewrite <- app_assoc.
Qed.

Lemma count_requests_app (url : string) (l1 l2 : list string) :
  count_requests url (l1 ++ l2) = (count_requests url l1 + count_requests url l2)%nat.
Proof. apply count_occ_app. Qed.

Lemma setPowerState_twice (turnOn : bool) (w : World Device) :
  (forall st w1, getState false w = (Resolved st, w1) ->
     exists body d, http_get "/lig" (device w1) = (Data body, d) /\
       isPoweredOn (parseStateParams body) = negb (isPoweredOn st)) ->
  exists new : list string,
    requests (snd (setPowerState turnOn (snd (setPowerState turnOn w))))
      = requests w ++ new /\
    (count_requests "/lig" new <= 1)%nat.
Proof.
  intros Hflip.
  destruct (getState false w) as [[st|e|] w1] eqn:Hget.
  - (* the state is known: the second call finds the cache as wanted *)
    assert (Hc1 : lastState w1 = Some st) by (eapply getState_resolved; eassumption).
    assert (Hreq : exists r0, requests w1 = requests w ++ r0 /\
                              count_requests "/lig" r0 = 0%nat).
    { destruct (getState_cases false w)
        as [(st' & E & _)|[(d & _ & E)|(body & d & _ & E)]];
        rewrite Hget in E; inversion E; subst.
      - exists []. split; [now rewrite app_nil_r|reflexivity].
      - exists ["tela_"]. split; reflexivity. }
    destruct Hreq as (r0 & Hr0 & Hcount0).
    destruct (Bool.eqb (isPoweredOn st) turnOn) eqn:Heq.
    + rewrite (setPowerState_run turnOn w), Hget, Heq. cbn [snd].
      rewrite (setPowerState_same turnOn w1 st Hc1) by now apply Bool.eqb_prop.
      exists r0. cbn [snd]. split; [assumption|lia].
    + destruct (Hflip st w1 eq_refl) as (body & d & Hlig & Hpow).
      rewrite (setPowerState_run turnOn w), Hget, Heq, Hlig. cbn [snd].
      rewrite (setPowerState_same turnOn _ (parseStateParams body)).
      * exists (r0 ++ ["/lig"]). cbn [snd after_request requests]. split.
        -- rewrite Hr0. now rewrite <- app_assoc.
        -- rewrite count_requests_app, Hcount0. reflexivity.
      * reflexivity.
      * rewrite Hpow. apply Bool.eqb_false_iff in Heq.
        destruct (isPoweredOn st), turnOn; try reflexivity; contradiction.
  - (* the read failed: only the second call can toggle *)
    rewrite (setPowerState_run turnOn w), Hget. cbn [snd].
    destruct (getState_cases false w)
      as [(st' & E & _)|[(d & _ & E)|(body & d & _ & E)]];
      rewrite Hget in E; inversion E; subst.
    destruct (setPowerState_requests turnOn (after_request w "tela_" d (lastState w)))
      as (new & Hnew & Hshape).
    exists ("tela_" :: new). split.
    + rewrite Hnew. cbn [requests after_request]. now rewrite <- app_assoc.
    + destruct Hshape as [->|[->|[->| ->]]]; cbv; lia.
  - destruct (getState_cases false w)
      as [(st' & E & _)|[(d & _ & E)|(body & d & _ & E)]];
      rewrite Hget in E; discriminate.
Qed.

Lemma setPowerState_miss (turnOn : bool) (w : World Device) :
  lastState w = None ->
  setPowerState turnOn w =
    match http_get "tela_" (device w) with
    | (Failure, d) => (Rejected RequestFailed, after_request w "tela_" d None)
    | (Data body0, d0) =>
        let st0 := parseStateParams body0 in
        let w1 := after_request w "tela_" d0 (Some st0) in
        if Bool.eqb (isPoweredOn st0) turnOn then (Resolved ReturnedTrue, w1)
        else
          match http_get "/lig" d0 with
          | (Failure, d) => (Rejected RequestFailed, after_request w1 "/lig" d (Some st0))
          | (Data body, d) =>
              (Resolved (ReturnedState (Some (parseStateParams body))),
               after_request w1 "/lig" d (Some (parseStateParams body)))
          end
    end.
Proof.
  intros Hc. rewrite setPowerState_run, getState_fetch by now left.
  rewrite Hc.
  destruct (http_get "tela_" (device w)) as [[|body0] d0]; [reflexivity|].
  cbv zeta.
  destruct (Bool.eqb (isPoweredOn (parseStateParams body0)) turnOn); [reflexivity|].
  cbn [device lastState RinnaiApi.after_request].
  destruct (http_get "/lig" d0) as [[|body] d]; reflexivity.
Qed.

(** C9, as the code has it: [setPowerState] reads the power state with
    [getState false].  With a state in the cache the read makes no request:
    if the cached power equals [turnOn] the call makes no request at all and
    returns [true], otherwise it makes the one request [/lig] and caches the
    decoded answer.  With an empty cache the read itself is one request
    [tela_], whose decoded answer is cached (a failed read is thrown and
    nothing is toggled); then, if the power read equals [turnOn], nothing
    more is requested and [true] is returned, otherwise the one request
    [/lig] follows and its decoded answer is cached.  One call never makes
    more than one read and one toggle request (nothing is retried), and two
    calls in a row with the same [turnOn] make at most one [/lig] request in
    all, when the heater answers the toggle of the first call with the
    flipped power state. *)
Theorem setPowerState_idempotent :
  (forall (turnOn : bool) (w : World Device) (st : RinnaiState),
     lastState w = Some st -> isPoweredOn st = turnOn ->
     setPowerState turnOn w = (Resolved ReturnedTrue, w)) /\
  (forall (turnOn : bool) (w : World Device) (st : RinnaiState),
     lastState w = Some st -> isPoweredOn st <> turnOn ->
     setPowerState turnOn w =
       match http_get "/lig" (device w) with
       | (Failure, d) => (Rejected RequestFailed, after_request w "/lig" d (Some st))
       | (Data body, d) =>
           (Resolved (ReturnedState (Some (parseStateParams body))),
            after_request w "/lig" d (Some (parseStateParams body)))
       end) /\
  (forall (turnOn : bool) (w : World Device),
     lastState w = None ->
     setPowerState turnOn w =
       match http_get "tela_" (device w) with
       | (Failure, d) => (Rejected RequestFailed, after_request w "tela_" d None)
       | (Data body0, d0) =>
           let st0 := parseStateParams body0 in
           let w1 := after_request w "tela_" d0 (Some st0) in
           if Bool.eqb (isPoweredOn st0) turnOn then (Resolved ReturnedTrue, w1)
           else
             match http_get "/lig" d0 with
             | (Failure, d) =>
                 (Rejected RequestFailed, after_request w1 "/lig" d (Some st0))
             | (Data body, d) =>
                 (Resolved (ReturnedState (Some (parseStateParams body))),
                  after_request w1 "/lig" d (Some (parseStateParams body)))
             end
       end) /\
  (forall (turnOn : bool) (w : World Device),
     exists new : list string,
       requests (snd (setPowerState turnOn w)) = requests w ++ new /\
       (new = [] \/ new = ["tela_"] \/ new = ["/lig"] \/ new = ["tela_"; "/lig"])) /\
  (forall (turnOn : bool) (w : World Device),
     (forall st w1, getState false w = (Resolved st, w1) ->
        exists body d, http_get "/lig" (device w1) = (Data body, d) /\
          isPoweredOn (parseStateParams body) = negb (isPoweredOn st)) ->
     exists new : list string,
       requests (snd (setPowerState turnOn (snd (setPowerState turnOn w))))
         = requests w ++ new /\
       (count_requests "/lig" new <= 1)%nat).
Proof.
  split; [exact setPowerState_same|].
  split; [exact setPowerState_toggle|].
  split; [exact setPowerState_miss|].
  split; [exact setPowerState_requests|].
  exact setPowerState_twice.
Qed.

End CacheFacts.

(** ** The convergence controller *)

Lemma strict_eq_via (y : number) (k c : Z) :
  strict_eq y (of_Z k) = true -> strict_eq y (of_Z c) = (k =? c).
Proof.
  destruct y as [| |q|]; simpl; try discriminate.
  intros H. apply Qeq_bool_iff in H.
  destruct (Z.eqb_spec k c) as [->|Hne].
  - now apply Qeq_bool_true.
  - apply Qeq_bool_false. intros Hq. apply Hne.
    apply inject_Z_injective. now rewrite <- H, <- Hq.
Qed.

Lemma gt_via (y : number) (k c : Z) :
  strict_eq y (of_Z k) = true -> gt (of_Z c) y = (k <? c).
Proof.
  destruct y as [| |q|]; simpl; try discriminate.
  intros H. apply Qeq_bool_iff in H. unfold gt, lt, of_Z.
  destruct (Z.ltb_spec k c) as [Hlt|Hge].
  - rewrite Qle_bool_false; [reflexivity|]. rewrite H. now rewrite <- Zlt_Qlt.
  - rewrite Qle_bool_true; [reflexivity|]. rewrite H. now rewrite <- Zle_Qle.
Qed.

Lemma truthy_via (y : number) (k : Z) :
  strict_eq y (of_Z k) = true -> k <> 0 -> truthy (Some y) = true.
Proof.
  destruct y as [| |q|]; simpl; try discriminate.
  intros H Hk. apply Qeq_bool_iff in H.
  rewrite Qeq_bool_false; [reflexivity|].
  rewrite H. change 0%Q with (inject_Z 0). now rewrite inject_Z_injective.
Qed.

Section ControllerFacts.

Context {Device : Type} (http_get : string -> Device -> response * Device).

Local Abbreviation getState := (getState Device http_get).
Local Abbreviation setTargetTemperature := (setTargetTemperature Device http_get).
Local Abbreviation try_block := (try_block Device http_get).
Local Abbreviation after_request := (after_request Device).

Lemma try_block_unmappable (target : number) (last : maybe_number) (w : World Device) :
  truthy (parseTargetTemperatureToRange target) = false ->
  try_block target last w = (Rejected could_not_find, w).
Proof. intros H. unfold RinnaiApi.try_block. rewrite H. reflexivity. Qed.

Lemma try_block_read (target : number) (last : maybe_number) (w : World Device) :
  truthy (parseTargetTemperatureToRange target) = true ->
  truthy last = false ->
  try_block target last w =
    match getState true w with
    | (Resolved st, w1) =>
        if truthy (targetTemperature st) then try_block target (targetTemperature st) w1
        else (Rejected could_not_get, w1)
    | (Rejected e, w1) => (Rejected e, w1)
    | (Unsettled, w1) => (Unsettled, w1)
    end.
Proof.
  intros Hd Hl. unfold RinnaiApi.try_block. rewrite Hd, Hl. cbn [negb].
  unfold bind, ret, throw.
  destruct (getState true w) as [[st|e|] w1]; try reflexivity.
  destruct (truthy (targetTemperature st)) eqn:Ht;
    repeat (cbv beta iota zeta delta [negb]; rewrite ?Ht); reflexivity.
Qed.

Lemma try_block_known (target : number) (last : maybe_number) (w : World Device) :
  truthy (parseTargetTemperatureToRange target) = true ->
  truthy last = true ->
  try_block target last w =
    if strict_eq_undef (parseTargetTemperatureToRange target) last then
      (Resolved (ReturnLastState (lastState w)), w)
    else
      let url := operation (parseTargetTemperatureToRange target) last in
      match http_get url (device w) with
      | (Failure, d) => (Rejected RequestFailed, after_request w url d (lastState w))
      | (Data body, d) =>
          let st := parseStateParams body in
          (Resolved
             (if strict_eq_undef (parseTargetTemperatureToRange target)
                   (targetTemperature st)
              then ReturnLastState (Some st)
              else CallAgain (targetTemperature st)),
           after_request w url d (Some st))
      end.
Proof.
  intros Hd Hl. unfold RinnaiApi.try_block. rewrite Hd, Hl. cbn [negb].
  unfold bind, ret, throw, operation, RinnaiApi.rinnaiApi, set_lastState, get_lastState.
  rewrite Hl. cbn [negb].
  destruct (strict_eq_undef (parseTargetTemperatureToRange target) last); [reflexivity|].
  destruct (http_get _ (device w)) as [[|body] d]; [reflexivity|].
  cbv zeta.
  destruct (strict_eq_undef (parseTargetTemperatureToRange target)
              (targetTemperature (parseStateParams body))); reflexivity.
Qed.

Lemma setTargetTemperature_frame (fuel : nat) (target : number) (retries : Z)
    (last : maybe_number) (w : World Device) :
  setTargetTemperature (S fuel) target retries last w =
    match try_block target last w with
    | (Resolved (ReturnLastState st), w') => (Resolved st, w')
    | (Resolved (CallAgain currentTargetTemp), w') =>
        setTargetTemperature fuel target 0 currentTargetTemp w'
    | (Rejected e, w') =>
        if retries <? 5 then setTargetTemperature fuel target (retries + 1) last w'
        else (Rejected max_retries, w')
    | (Unsettled, w') => (Unsettled, w')
    end.
Proof. reflexivity. Qed.

(** *** One step *)



(** *** Failures in a row *)


Lemma repeat_cons_app (url : string) (n : nat) (l : list string) :
  (l ++ [url]) ++ repeat url n = l ++ repeat url (S n).
Proof. now rewrite <- app_assoc. Qed.



(** *** The first frame of a call

    A call from outside carries no [lastTargetTemp]: its frame starts with
    the forced read. *)








(** *** Errors *)






(** *** Convergence *)

Section Convergence.

Variable temp : Device -> Z.
Hypothesis Hheater : unit_step_heater http_get temp.

Variables (target y : number) (desired : Z).
Hypothesis Hmap : parseTargetTemperatureToRange target = Some y.
Hypothesis Hy : strict_eq y (of_Z desired) = true.

Lemma desired_in_range : 35 <= desired <= 45.
Proof.
  assert (Hx : target <> NaN) by (intros ->; discriminate).
  destruct (mapper_not_NaN target Hx) as (k & y' & Hk & Hmap' & Hy').
  rewrite Hmap in Hmap'. inversion Hmap'; subst y'.
  rewrite (strict_eq_via y k desired Hy') in Hy.
  apply Z.eqb_eq in Hy. lia.
Qed.

Lemma desired_truthy : truthy (parseTargetTemperatureToRange target) = true.
Proof.
  rewrite Hmap. apply (truthy_via y desired Hy).
  pose proof desired_in_range. lia.
Qed.

Lemma current_truthy (cur : Z) : 35 <= cur <= 45 -> truthy (Some (of_Z cur)) = true.
Proof. intros H. rewrite truthy_of_Z. apply negb_true_iff, Z.eqb_neq. lia. Qed.

Lemma desired_eq_current (cur : Z) :
  strict_eq_undef (parseTargetTemperatureToRange target) (Some (of_Z cur))
    = (desired =? cur).
Proof. rewrite Hmap. apply (strict_eq_via y desired cur Hy). Qed.

(** The step taken at [cur]. *)
Lemma operation_at (cur : Z) :
  operation (parseTargetTemperatureToRange target) (Some (of_Z cur))
    = if desired <? cur then "dec" else "inc".
Proof.
  rewrite Hmap. unfold operation, gt_undef, to_number.
  now rewrite (gt_via y desired cur Hy).
Qed.

Lemma heater_step (d : Device) :
  35 <= temp d <= 45 -> desired <> temp d ->
  let t := if desired <? temp d then temp d - 1 else temp d + 1 in
  answers_with http_get temp (if desired <? temp d then "dec" else "inc") d t.
Proof.
  intros Hr Hne. pose proof desired_in_range as Hd.
  destruct Hheater as (_ & Hinc & Hdec).
  destruct (Z.ltb_spec desired (temp d)); [apply Hdec|apply Hinc]; lia.
Qed.

Lemma converge_steps (n : nat) :
  forall (fuel : nat) (retries : Z) (last : maybe_number) (w0 w : World Device),
    try_block target last w0 = try_block target (Some (of_Z (temp (device w)))) w ->
    35 <= temp (device w) <= 45 ->
    Z.abs (desired - temp (device w)) = Z.of_nat (S n) ->
    (S n <= fuel)%nat ->
    exists (st : RinnaiState) (w' : World Device),
      setTargetTemperature fuel target retries last w0 = (Resolved (Some st), w') /\
      targetTemperature st = Some (of_Z desired) /\
      requests w' = requests w
        ++ repeat (if desired <? temp (device w) then "dec" else "inc") (S n).
Proof.
  pose proof desired_in_range as Hd.
  induction n as [|n IH]; intros fuel retries last w0 w Htry Hr Hdist Hfuel;
    (destruct fuel as [|fuel]; [lia|]);
    rewrite setTargetTemperature_frame, Htry;
    rewrite try_block_known by (apply desired_truthy || now apply current_truthy);
    rewrite desired_eq_current;
    (replace (desired =? temp (device w)) with false by (symmetry; apply Z.eqb_neq; lia));
    cbv zeta; rewrite operation_at;
    destruct (heater_step (device w) Hr ltac:(lia)) as (body & d' & Hget & Hbody & Hd');
    rewrite Hget, Hbody, desired_eq_current.
  - replace (desired =? _) with true by (symmetry; apply Z.eqb_eq; destruct (desired <? temp (device w)) eqn:E; [apply Z.ltb_lt in E|apply Z.ltb_ge in E]; lia).
    eexists _, _. split; [reflexivity|]. split.
    + rewrite Hbody. f_equal. f_equal.
      destruct (desired <? temp (device w)) eqn:E; [apply Z.ltb_lt in E|apply Z.ltb_ge in E]; lia.
    + reflexivity.
  - replace (desired =? _) with false by (symmetry; apply Z.eqb_neq; destruct (desired <? temp (device w)) eqn:E; [apply Z.ltb_lt in E|apply Z.ltb_ge in E]; lia).
    set (url := if desired <? temp (device w) then "dec" else "inc") in *.
    set (t := if desired <? temp (device w) then temp (device w) - 1 else temp (device w) + 1) in *.
    set (w1 := after_request w url d' (Some (parseStateParams body))).
    assert (Ht1 : temp (device w1) = t) by exact Hd'.
    assert (Hside : (desired <? t) = (desired <? temp (device w))).
    { subst t. destruct (desired <? temp (device w)) eqn:E;
        [apply Z.ltb_lt in E; apply Z.ltb_lt|apply Z.ltb_ge in E; apply Z.ltb_ge]; lia. }
    destruct (IH fuel 0 (Some (of_Z t)) w1 w1) as (st & w' & Hrun & Hst & Hreq).
    + now rewrite Ht1.
    + rewrite Ht1. subst t.
      destruct (desired <? temp (device w)) eqn:E; [apply Z.ltb_lt in E|apply Z.ltb_ge in E]; lia.
    + rewrite Ht1. subst t.
      destruct (desired <? temp (device w)) eqn:E; [apply Z.ltb_lt in E|apply Z.ltb_ge in E]; lia.
    + lia.
    + exists st, w'. split; [exact Hrun|]. split; [exact Hst|].
      rewrite Hreq, Ht1, Hside. fold url.
      subst w1. cbn [requests RinnaiApi.after_request].
      apply repeat_cons_app.
Qed.

Lemma converge (w : World Device) (fuel : nat) :
  35 <= temp (device w) <= 45 ->
  (Nat.max 1 (Z.to_nat (Z.abs (desired - temp (device w)))) <= fuel)%nat ->
  exists (st : RinnaiState) (w' : World Device),
    setTargetTemperature fuel target 0 None w = (Resolved (Some st), w') /\
    targetTemperature st = Some (of_Z desired) /\
    requests w' = requests w
      ++ "tela_" :: repeat (if desired <? temp (device w) then "dec" else "inc")
                      (Z.to_nat (Z.abs (desired - temp (device w)))).
Proof.
  intros Hr Hfuel.
  destruct Hheater as (Hread & _ & _).
  destruct (Hread (device w) Hr) as (body & d0 & Hget & Hbody & Hd0).
  set (st0 := parseStateParams body) in *.
  set (w1 := after_request w "tela_" d0 (Some st0)).
  assert (Ht1 : temp (device w1) = temp (device w)) by exact Hd0.
  assert (Htry : try_block target None w
                 = try_block target (Some (of_Z (temp (device w1)))) w1).
  { rewrite try_block_read by (apply desired_truthy || reflexivity).
    rewrite getState_fetch by now right.
    rewrite Hget. fold st0. rewrite Hbody, current_truthy by assumption.
    now rewrite Ht1. }
  destruct (Z.to_nat (Z.abs (desired - temp (device w)))) as [|n] eqn:Hn.
  - destruct fuel as [|fuel]; [simpl in Hfuel; lia|].
    rewrite setTargetTemperature_frame, Htry.
    rewrite try_block_known by (apply desired_truthy || (apply current_truthy; lia)).
    rewrite desired_eq_current.
    replace (desired =? temp (device w1)) with true by (symmetry; apply Z.eqb_eq; lia).
    exists st0, w1. split; [reflexivity|]. split; [|reflexivity].
    rewrite Hbody. f_equal. f_equal. lia.
  - destruct (converge_steps n fuel 0 None w w1 Htry) as (st & w' & Hrun & Hst & Hreq);
      try lia.
    exists st, w'. split; [exact Hrun|]. split; [exact Hst|].
    rewrite Hreq, Ht1. subst w1. cbn [requests RinnaiApi.after_request].
    now rewrite <- app_assoc.
Qed.

End Convergence.

(** C1: on a heater that answers every read, and every [inc] and [dec] by
    moving the reported target temperature by exactly one unit,
    [setTargetTemperature target] reads the state once and then requests
    [dec] when the current target exceeds the desired value and [inc]
    otherwise, as many times as the two are apart, which is at most 10; it
    resolves with a state whose target temperature is the desired value, for
    every fuel that covers the steps.  A desired value 3 above the current
    one makes exactly the requests [inc], [inc], [inc] after the read. *)
Theorem setTargetTemperature_converges
    (temp : Device -> Z) (target y : number) (desired : Z) (w : World Device) :
  unit_step_heater http_get temp ->
  parseTargetTemperatureToRange target = Some y ->
  strict_eq y (of_Z desired) = true ->
  35 <= temp (device w) <= 45 ->
  let current := temp (device w) in
  let steps := Z.to_nat (Z.abs (desired - current)) in
  let url := if desired <? current then "dec" else "inc" in
  (steps <= List.length AVAILABLE_TEMPERATURES - 1)%nat /\
  (List.length AVAILABLE_TEMPERATURES - 1 = 10)%nat /\
  (forall fuel : nat, (Nat.max 1 steps <= fuel)%nat ->
     exists (st : RinnaiState) (w' : World Device),
       setTargetTemperature fuel target 0 None w = (Resolved (Some st), w') /\
       targetTemperature st = Some (of_Z desired) /\
       strict_eq_undef (parseTargetTemperatureToRange target) (targetTemperature st)
         = true /\
       requests w' = requests w ++ "tela_" :: repeat url steps) /\
  (desired = current + 3 ->
   forall fuel : nat, (3 <= fuel)%nat ->
     exists (st : RinnaiState) (w' : World Device),
       setTargetTemperature fuel target 0 None w = (Resolved (Some st), w') /\
       targetTemperature st = Some (of_Z desired) /\
       requests w' = requests w ++ ["tela_"; "inc"; "inc"; "inc"]).
Proof.
  intros Hheater Hmap Hy Hr current steps url.
  pose proof (desired_in_range target y desired Hmap Hy) as Hd.
  split; [subst steps current; simpl; lia|]. split; [reflexivity|]. split.
  - intros fuel Hfuel.
    destruct (converge temp Hheater target y desired Hmap Hy w fuel Hr Hfuel)
      as (st & w' & Hrun & Hst & Hreq).
    exists st, w'. split; [exact Hrun|]. split; [exact Hst|]. split; [|exact Hreq].
    rewrite Hst, (desired_eq_current target y desired Hmap Hy). apply Z.eqb_refl.
  - intros H3 fuel Hfuel.
    assert (Hsteps : steps = 3%nat) by (subst steps; lia).
    destruct (converge temp Hheater target y desired Hmap Hy w fuel Hr)
      as (st & w' & Hrun & Hst & Hreq).
    { fold current. fold steps. rewrite Hsteps. simpl. lia. }
    exists st, w'. split; [exact Hrun|]. split; [exact Hst|].
    rewrite Hreq. fold current. fold steps. rewrite Hsteps.
    replace (desired <? current) with false by (symmetry; apply Z.ltb_ge; lia).
    reflexivity.
Qed.

End ControllerFacts.

(** ** Runs against the heaters of [Heaters] *)


Lemma raw_index_cases (i : Z) : 3 <= i <= 13 ->
  i = 3 \/ i = 4 \/ i = 5 \/ i = 6 \/ i = 7 \/ i = 8 \/ i = 9 \/ i = 10 \/
  i = 11 \/ i = 12 \/ i = 13.
Proof. lia. Qed.

Ltac each_index i H :=
  apply raw_index_cases in H;
  repeat (destruct H as [H|H]; [subst i|]); try subst i.

(** The heater of [heater_get] holds target temperature [index + 32] and is
    a unit-step heater. *)
Lemma heater_unit_step : unit_step_heater heater_get (fun h => index h + 32).
Proof.
  unfold unit_step_heater, answers_with.
  split; [|split]; intros [i p hh] Hr; cbn [index] in Hr.
  - exists (line {| index := i; power := p; heating := hh |}),
           {| index := i; power := p; heating := hh |}.
    assert (Hi : 3 <= i <= 13) by lia.
    each_index i Hi; destruct p, hh; repeat split; vm_compute; reflexivity.
  - exists (line {| index := Z.min 13 (i + 1); power := p; heating := hh |}),
           {| index := Z.min 13 (i + 1); power := p; heating := hh |}.
    assert (Hi : 3 <= i <= 13) by lia.
    each_index i Hi; try lia; destruct p, hh; repeat split; vm_compute; reflexivity.
  - exists (line {| index := Z.max 3 (i - 1); power := p; heating := hh |}),
           {| index := Z.max 3 (i - 1); power := p; heating := hh |}.
    assert (Hi : 3 <= i <= 13) by lia.
    each_index i Hi; try lia; destruct p, hh; repeat split; vm_compute; reflexivity.
Qed.

Example run_37_to_40 :
  setTargetTemperature heater heater_get 3 (of_Z 40) 0 None (boot (heater_at 5)) =
    (Resolved (Some {| targetTemperature := Some (of_Z 40);
                       isHeating := false; isPoweredOn := true |}),
     {| lastState := Some {| targetTemperature := Some (of_Z 40);
                             isHeating := false; isPoweredOn := true |};
        device := heater_at 8;
        requests := ["tela_"; "inc"; "inc"; "inc"] |}).
Proof. vm_compute. reflexivity. Qed.

Example run_44_to_41_5 :
  requests (snd (setTargetTemperature heater heater_get 3 (Finite (83 # 2)) 0 None
                   (boot (heater_at 12))))
    = ["tela_"; "dec"; "dec"; "dec"].
Proof. vm_compute. reflexivity. Qed.

Example run_already_there :
  requests (snd (setTargetTemperature heater heater_get 1 (of_Z 37) 0 None
                   (boot (heater_at 5))))
    = ["tela_"].
Proof. vm_compute. reflexivity. Qed.

Lemma setTargetTemperature_converges_witness :
  let w := boot (heater_at 5) in
  let current := index (device w) + 32 in
  let steps := Z.to_nat (Z.abs (40 - current)) in
  let url := if 40 <? current then "dec" else "inc" in
  (steps <= List.length AVAILABLE_TEMPERATURES - 1)%nat /\
  (List.length AVAILABLE_TEMPERATURES - 1 = 10)%nat /\
  (forall fuel : nat, (Nat.max 1 steps <= fuel)%nat ->
     exists (st : RinnaiState) (w' : World heater),
       setTargetTemperature heater heater_get fuel (of_Z 40) 0 None w
         = (Resolved (Some st), w') /\
       targetTemperature st = Some (of_Z 40) /\
       strict_eq_undef (parseTargetTemperatureToRange (of_Z 40)) (targetTemperature st)
         = true /\
       requests w' = requests w ++ "tela_" :: repeat url steps) /\
  (40 = current + 3 ->
   forall fuel : nat, (3 <= fuel)%nat ->
     exists (st : RinnaiState) (w' : World heater),
       setTargetTemperature heater heater_get fuel (of_Z 40) 0 None w
         = (Resolved (Some st), w') /\
       targetTemperature st = Some (of_Z 40) /\
       requests w' = requests w ++ ["tela_"; "inc"; "inc"; "inc"]).
Proof.
  apply (setTargetTemperature_converges heater_get (fun h => index h + 32)
           (of_Z 40) (of_Z 40) 40 (boot (heater_at 5))).
  - exact heater_unit_step.
  - reflexivity.
  - reflexivity.
  - simpl. lia.
Defined.

(** The link fails 6 times, then 4 times, while the controller steps from
    37 degrees towards 40. *)
Example run_six_failures :
  setTargetTemperature _ flaky_get 6 (of_Z 40) 0 (Some (of_Z 37))
    (boot (6%nat, heater_at 5)) =
    (Rejected max_retries,
     {| lastState := None; device := (0%nat, heater_at 5);
        requests := ["inc"; "inc"; "inc"; "inc"; "inc"; "inc"] |}).
Proof. vm_compute. reflexivity. Qed.

Example run_four_failures :
  setTargetTemperature _ flaky_get 7 (of_Z 40) 0 (Some (of_Z 37))
    (boot (4%nat, heater_at 5)) =
    (Resolved (Some {| targetTemperature := Some (of_Z 40);
                       isHeating := false; isPoweredOn := true |}),
     {| lastState := Some {| targetTemperature := Some (of_Z 40);
                             isHeating := false; isPoweredOn := true |};
        device := (0%nat, heater_at 8);
        requests := ["inc"; "inc"; "inc"; "inc"; "inc"; "inc"; "inc"] |}).
Proof. vm_compute. reflexivity. Qed.

Example run_six_failed_reads :
  setTargetTemperature _ flaky_get 6 (of_Z 40) 0 None (boot (6%nat, heater_at 5)) =
    (Rejected max_retries,
     {| lastState := None; device := (0%nat, heater_at 5);
        requests := ["tela_"; "tela_"; "tela_"; "tela_"; "tela_"; "tela_"] |}).
Proof. vm_compute. reflexivity. Qed.

Example run_four_failed_reads :
  setTargetTemperature _ flaky_get 7 (of_Z 40) 0 None (boot (4%nat, heater_at 5)) =
    (Resolved (Some {| targetTemperature := Some (of_Z 40);
                       isHeating := false; isPoweredOn := true |}),
     {| lastState := Some {| targetTemperature := Some (of_Z 40);
                             isHeating := false; isPoweredOn := true |};
        device := (0%nat, heater_at 8);
        requests := ["tela_"; "tela_"; "tela_"; "tela_"; "tela_"; "inc"; "inc"; "inc"] |}).
Proof. vm_compute. reflexivity. Qed.




(** ** Malformed lines *)

Lemma parseStateParams_malformed_counterexample :
  (List.length (split_comma "10,0,1") < 8)%nat /\
  parseStateParams "10,0,1" =
    {| targetTemperature := None; isHeating := true; isPoweredOn := true |} /\
  at_index (split_comma "10,0,1,0,0,0,0,abc,0") 7 = Some "abc" /\
  parseInt (Some "abc") = NaN /\
  parseStateParams "10,0,1,0,0,0,0,abc,0" =
    {| targetTemperature := None; isHeating := true; isPoweredOn := true |} /\
  fst (getState unit (canned_get "10,0,1") true (boot tt)) =
    Resolved {| targetTemperature := None; isHeating := true; isPoweredOn := true |} /\
  (forall e : exn, fst (getState unit (canned_get "10,0,1") true (boot tt)) <> Rejected e).
Proof.
  repeat split; try (vm_compute; reflexivity).
  - vm_compute. lia.
  - intros e. vm_compute. discriminate.
Qed.

(** C7, as the code has it: the decoder throws nothing.  Applied to a line
    with fewer than 8 fields, or whose field 7 holds no integer,
    [parseStateParams] returns a state without target temperature,
    [isHeating] and [isPoweredOn] being read from fields 2 and 0 as usual (a
    missing field 2 reads as not heating). *)
Theorem parseStateParams_malformed_no_error (line : string) :
  (List.length (split_comma line) < 8)%nat \/
  parseInt (at_index (split_comma line) 7) = NaN ->
  parseStateParams line =
    {| targetTemperature := None;
       isHeating := strict_eq_string (at_index (split_comma line) 2) "1";
       isPoweredOn := negb (strict_eq_string (at_index (split_comma line) 0) "11") |}.
Proof.
  intros H. pose proof (parseStateParams_malformed line H) as Ht.
  unfold parseStateParams in *. cbn [targetTemperature] in Ht. now rewrite Ht.
Qed.

Lemma parseStateParams_malformed_no_error_witness :
  parseStateParams "11,0" =
    {| targetTemperature := None;
       isHeating := strict_eq_string (at_index (split_comma "11,0") 2) "1";
       isPoweredOn := negb (strict_eq_string (at_index (split_comma "11,0") 0) "11") |} /\
  parseStateParams "10,0,1,0,0,0,0,abc,0" =
    {| targetTemperature := None;
       isHeating :=
         strict_eq_string (at_index (split_comma "10,0,1,0,0,0,0,abc,0") 2) "1";
       isPoweredOn :=
         negb (strict_eq_string (at_index (split_comma "10,0,1,0,0,0,0,abc,0") 0) "11") |}.
Proof.
  split.
  - apply parseStateParams_malformed_no_error. left. simpl. lia.
  - apply parseStateParams_malformed_no_error. right. reflexivity.
Defined.

(** ** The cache and the power switch on a heater *)

Lemma getState_cache_witness :
  let st := parseStateParams (line (heater_at 5)) in
  let w := {| lastState := Some st; device := heater_at 9; requests := ["tela_"] |} in
  getState heater heater_get false w = (Resolved st, w) /\
  getState heater heater_get true w =
    (Resolved (parseStateParams (line (heater_at 9))),
     after_request heater w "tela_" (heater_at 9)
       (Some (parseStateParams (line (heater_at 9))))) /\
  getState heater heater_get false (snd (getState heater heater_get true w)) =
    (Resolved (parseStateParams (line (heater_at 9))),
     snd (getState heater heater_get true w)).
Proof.
  intros st w.
  destruct (getState_cache heater_get) as (Hhit & Hfetch & _ & Hafter).
  refine (conj _ (conj _ _)).
  - apply Hhit. reflexivity.
  - apply (Hfetch true w). right. reflexivity.
  - apply (Hafter w). left. exists true. reflexivity.
Defined.

(** At start-up the cache is empty: the heater is on and is asked to be on,
    and the call still makes a request. *)
Lemma setPowerState_empty_cache_counterexample :
  lastState (boot (heater_at 5)) = None /\
  setPowerState heater heater_get true (boot (heater_at 5)) =
    (Resolved ReturnedTrue,
     {| lastState := Some {| targetTemperature := Some (of_Z 37);
                             isHeating := false; isPoweredOn := true |};
        device := heater_at 5;
        requests := ["tela_"] |}) /\
  requests (snd (setPowerState heater heater_get true (boot (heater_at 5))))
    <> requests (boot (heater_at 5)).
Proof.
  split; [reflexivity|]. split; [vm_compute; reflexivity|].
  vm_compute. discriminate.
Qed.

Lemma setPowerState_idempotent_witness :
  let w := snd (getState heater heater_get true (boot (heater_at 5))) in
  setPowerState heater heater_get true w = (Resolved ReturnedTrue, w) /\
  setPowerState heater heater_get false w =
    (Resolved (ReturnedState (Some (parseStateParams
       (line {| index := 5; power := false; heating := false |})))),
     after_request heater w "/lig" {| index := 5; power := false; heating := false |}
       (Some (parseStateParams (line {| index := 5; power := false; heating := false |})))) /\
  setPowerState heater heater_get false (boot (heater_at 5)) =
    (Resolved (ReturnedState (Some (parseStateParams
       (line {| index := 5; power := false; heating := false |})))),
     after_request heater
       (after_request heater (boot (heater_at 5)) "tela_" (heater_at 5)
          (Some (parseStateParams (line (heater_at 5)))))
       "/lig" {| index := 5; power := false; heating := false |}
       (Some (parseStateParams (line {| index := 5; power := false; heating := false |})))) /\
  (exists new : list string,
     requests (snd (setPowerState heater heater_get false
                      (snd (setPowerState heater heater_get false w))))
       = requests w ++ new /\
     (count_requests "/lig" new <= 1)%nat).
Proof.
  intros w.
  destruct (setPowerState_idempotent heater_get)
    as (Hsame & Htoggle & Hmiss & _ & Htwice).
  refine (conj _ (conj _ (conj _ _))).
  - apply (Hsame true w (parseStateParams (line (heater_at 5)))); reflexivity.
  - apply (Htoggle false w (parseStateParams (line (heater_at 5)))).
    + reflexivity.
    + vm_compute. discriminate.
  - apply (Hmiss false (boot (heater_at 5))). reflexivity.
  - apply (Htwice false w). intros st w1 Hget.
    vm_compute in Hget. inversion Hget; subst.
    eexists _, _. split; vm_compute; reflexivity.
Defined.

Example setPowerState_twice_run :
  requests (snd (setPowerState heater heater_get false
                   (snd (setPowerState heater heater_get false (boot (heater_at 5))))))
    = ["tela_"; "/lig"].
Proof. vm_compute. reflexivity. Qed.

(** * Further properties *)

Import PlatformAccessory Models.

(** ** The mapper as a function on numbers *)

Lemma strict_eq_Finite (y : number) (k : Z) :
  strict_eq y (of_Z k) = true -> exists q : Q, y = Finite q /\ q == inject_Z k.
Proof.
  destruct y as [| |q|]; simpl; try discriminate.
  intros H. exists q. split; [reflexivity|now apply Qeq_bool_iff].
Qed.

Lemma Qfloor_below (q : Q) (k : Z) : (q < inject_Z k)%Q -> Qfloor q < k.
Proof.
  intros H. pose proof (Qfloor_le q) as Hfl.
  apply (Qle_lt_trans _ _ _ Hfl) in H. now rewrite <- Zlt_Qlt in H.
Qed.

Lemma Qfloor_above (q : Q) (k : Z) : (inject_Z k <= q)%Q -> k <= Qfloor q.
Proof.
  intros H. rewrite <- (Qfloor_Z k). now apply Qfloor_resp_le.
Qed.

Lemma mapper_clamp_floor (q : Q) :
  exists y : number,
    parseTargetTemperatureToRange (Finite q) = Some y /\
    strict_eq y (of_Z (clamp_floor q)) = true.
Proof.
  unfold clamp_floor.
  destruct (Qlt_le_dec q 35) as [Hlo|Hlo].
  { exists (of_Z 35). rewrite mapper_below by assumption. split; [reflexivity|].
    pose proof (Qfloor_below q 35 Hlo).
    rewrite strict_eq_of_Z. apply Z.eqb_eq. lia. }
  destruct (Qlt_le_dec 45 q) as [Hhi|Hhi].
  { exists (of_Z 45). rewrite mapper_above by assumption. split; [reflexivity|].
    pose proof (Qfloor_above q 45 (Qlt_le_weak _ _ Hhi)).
    rewrite strict_eq_of_Z. apply Z.eqb_eq. lia. }
  pose proof (Qfloor_above q 35 Hlo) as H35.
  assert (H45 : Qfloor q <= 45).
  { rewrite <- (Qfloor_Z 45). now apply Qfloor_resp_le. }
  replace (Z.max 35 (Z.min 45 (Qfloor q))) with (Qfloor q) by lia.
  pose proof (Qfloor_le q) as Hfl.
  destruct (Qeq_dec q (inject_Z (Qfloor q))) as [Heq|Hne].
  - exists (Finite q).
    rewrite (mapper_supported (Qfloor q)) by (assumption || lia).
    split; [reflexivity|]. now apply Qeq_bool_true.
  - assert (Hlt : (inject_Z (Qfloor q) < q)%Q).
    { destruct (Qle_lt_or_eq _ _ Hfl) as [H|H]; [assumption|]. symmetry in H. contradiction. }
    assert (Hk45 : Qfloor q < 45).
    { destruct (Z.eq_dec (Qfloor q) 45) as [E|E]; [|lia].
      rewrite E in Hlt. change (inject_Z 45) with 45%Q in Hlt. lra. }
    exists (of_Z (Qfloor q)).
    rewrite (mapper_between (Qfloor q)) by (assumption || lia || apply Qlt_floor).
    split; [reflexivity|]. rewrite strict_eq_of_Z. apply Z.eqb_refl.
Qed.

(** X1: on every finite number the mapper returns the floor of the number
    brought into 35..45. *)
Theorem parseTargetTemperatureToRange_clamp_floor (q : Q) :
  exists y : number,
    parseTargetTemperatureToRange (Finite q) = Some y /\
    strict_eq y (of_Z (Z.max 35 (Z.min 45 (Qfloor q)))) = true.
Proof. exact (mapper_clamp_floor q). Qed.

Lemma mapper_result_fixed (k : Z) (y : number) :
  35 <= k <= 45 -> strict_eq y (of_Z k) = true ->
  parseTargetTemperatureToRange y = Some y.
Proof.
  intros Hk Hy. destruct (strict_eq_Finite y k Hy) as (q & -> & Hq).
  now apply (mapper_supported k).
Qed.

(** X2: the mapper is idempotent: what it returns, it maps to itself. *)
Theorem parseTargetTemperatureToRange_idempotent (x y : number) :
  parseTargetTemperatureToRange x = Some y ->
  parseTargetTemperatureToRange y = Some y.
Proof.
  intros Hmap.
  assert (Hx : x <> NaN) by (intros ->; discriminate).
  destruct (mapper_not_NaN x Hx) as (k & y' & Hk & Hmap' & Hy').
  rewrite Hmap in Hmap'. inversion Hmap'; subst y'.
  now apply (mapper_result_fixed k).
Qed.

Lemma parseTargetTemperatureToRange_idempotent_witness :
  parseTargetTemperatureToRange (of_Z 36) = Some (of_Z 36).
Proof.
  apply (parseTargetTemperatureToRange_idempotent (Finite (73 # 2)) (of_Z 36)).
  reflexivity.
Defined.

Lemma clamp_floor_monotone (q1 q2 : Q) :
  (q1 <= q2)%Q -> clamp_floor q1 <= clamp_floor q2.
Proof.
  intros H. unfold clamp_floor. pose proof (Qfloor_resp_le q1 q2 H). lia.
Qed.

(** X3: the mapper is monotone: a request that is not smaller never maps to
    a smaller temperature. *)
Theorem parseTargetTemperatureToRange_monotone (q1 q2 : Q) (y1 y2 : number) :
  (q1 <= q2)%Q ->
  parseTargetTemperatureToRange (Finite q1) = Some y1 ->
  parseTargetTemperatureToRange (Finite q2) = Some y2 ->
  lt y2 y1 = false.
Proof.
  intros Hle H1 H2.
  destruct (mapper_clamp_floor q1) as (z1 & Hz1 & Hc1).
  destruct (mapper_clamp_floor q2) as (z2 & Hz2 & Hc2).
  rewrite H1 in Hz1. rewrite H2 in Hz2. inversion Hz1; inversion Hz2; subst z1 z2.
  destruct (strict_eq_Finite y1 _ Hc1) as (r1 & -> & Hr1).
  destruct (strict_eq_Finite y2 _ Hc2) as (r2 & -> & Hr2).
  unfold lt. apply negb_false_iff, Qle_bool_iff.
  assert (Hc : (inject_Z (clamp_floor q1) <= inject_Z (clamp_floor q2))%Q).
  { rewrite <- Zle_Qle. now apply clamp_floor_monotone. }
  lra.
Qed.

Lemma parseTargetTemperatureToRange_monotone_witness :
  lt (of_Z 41) (of_Z 36) = false.
Proof.
  apply (parseTargetTemperatureToRange_monotone (73 # 2) (83 # 2));
    [unfold Qle; simpl; lia | reflexivity | reflexivity].
Defined.

(** ** What the decoder can report *)

Lemma parseRinnaiTemperature_some (x t : number) :
  parseRinnaiTemperature x = Some t ->
  exists n : Z, 3 <= n <= 13 /\ strict_eq x (of_Z n) = true /\ t = of_Z (n + 32).
Proof.
  intros H. unfold parseRinnaiTemperature in H.
  destruct x as [| |q|]; cbn [sub of_Z] in H;
    try (unfold at_number in H; discriminate).
  pose proof (at_number_some _ _ _ H) as (m & Hm & Hrange).
  change (Z.of_nat (List.length RINNAI_STATE_TEMPERATURES)) with 11 in Hrange.
  rewrite (at_number_integer _ _ m Hm) in H.
  exists (m + 3). split; [lia|]. split.
  - simpl. apply Qeq_bool_true. rewrite inject_Z_plus.
    change (inject_Z 3) with 3%Q in *. lra.
  - assert (Hk : m = 0 \/ m = 1 \/ m = 2 \/ m = 3 \/ m = 4 \/ m = 5 \/ m = 6 \/
                 m = 7 \/ m = 8 \/ m = 9 \/ m = 10) by lia.
    repeat (destruct Hk as [Hk|Hk];
            [subst m; vm_compute in H; inversion H; reflexivity|]).
    subst m; vm_compute in H; inversion H; reflexivity.
Qed.

Lemma decoded_supported (body : string) : supported_state (parseStateParams body).
Proof.
  unfold supported_state.
  destruct (targetTemperature (parseStateParams body)) as [t|] eqn:E; [|exact I].
  unfold parseStateParams in E. cbn [targetTemperature] in E.
  destruct (parseRinnaiTemperature_some _ _ E) as (n & Hn & _ & ->).
  exists (n + 32). split; [lia|reflexivity].
Qed.

(** X4: whatever the line, the target temperature the decoder reports is
    absent or one of 35..45, and it is reported exactly when field 7 reads as
    a raw index in 3..13. *)
Theorem parseStateParams_temperature_range (line : string) :
  match targetTemperature (parseStateParams line) with
  | None =>
      forall n : Z, 3 <= n <= 13 ->
        strict_eq (parseInt (at_index (split_comma line) 7)) (of_Z n) = false
  | Some t =>
      exists n : Z, 3 <= n <= 13 /\ t = of_Z (n + 32) /\
        strict_eq (parseInt (at_index (split_comma line) 7)) (of_Z n) = true
  end.
Proof.
  unfold parseStateParams. cbn [targetTemperature].
  set (x := parseInt (at_index (split_comma line) 7)).
  destruct (parseRinnaiTemperature x) as [t|] eqn:E.
  - destruct (parseRinnaiTemperature_some _ _ E) as (n & Hn & Hx & ->).
    now exists n.
  - intros n Hn. destruct (strict_eq x (of_Z n)) eqn:Hx; [|reflexivity].
    destruct (strict_eq_Finite x n Hx) as (q & Eq & Hq).
    assert (Hin : parseRinnaiTemperature x = Some (of_Z (35 + (n - 3)))).
    { rewrite Eq. unfold parseRinnaiTemperature, sub, of_Z.
      rewrite (at_number_integer _ _ (n - 3)).
      - transitivity (parseRinnaiTemperature (of_Z n));
          [symmetry; apply parseRinnaiTemperature_of_Z
          |now apply parseRinnaiTemperature_in_table].
      - rewrite Hq. unfold Z.sub. rewrite inject_Z_plus, inject_Z_opp. reflexivity. }
    rewrite Hin in E. discriminate.
Qed.

Lemma parseStateParams_temperature_range_witness :
  (exists n : Z, 3 <= n <= 13 /\ of_Z 38 = of_Z (n + 32) /\
     strict_eq (parseInt (at_index (split_comma "10,x,1,x,x,x,x,6,x") 7)) (of_Z n) = true) /\
  (forall n : Z, 3 <= n <= 13 ->
     strict_eq (parseInt (at_index (split_comma "10,0,0,0,0,0,0,14,0") 7)) (of_Z n) = false).
Proof.
  split.
  - exact (parseStateParams_temperature_range "10,x,1,x,x,x,x,6,x").
  - exact (parseStateParams_temperature_range "10,0,0,0,0,0,0,14,0").
Defined.

Lemma split_comma_app (a b : string) :
  split_comma (a ++ String "," b)%string = split_comma a ++ split_comma b.
Proof.
  induction a as [|c a IH]; [reflexivity|].
  cbn [String.append split_comma]. rewrite IH.
  destruct (Ascii.eqb c ","); [reflexivity|].
  pose proof (split_comma_nonempty a) as Hne.
  destruct (split_comma a) as [|f fs]; [contradiction|reflexivity].
Qed.

Lemma at_index_app (l1 l2 : list string) (i : nat) :
  (i < List.length l1)%nat -> at_index (l1 ++ l2) i = at_index l1 i.
Proof. intros H. unfold at_index. now apply nth_error_app1. Qed.

(** X5: fields after the eighth do not matter: a line with at least 8
    fields decodes the same with anything appended after a further comma. *)
Theorem parseStateParams_ignores_trailing_fields (line extra : string) :
  (8 <= List.length (split_comma line))%nat ->
  parseStateParams (line ++ String "," extra)%string = parseStateParams line.
Proof.
  intros Hlen. unfold parseStateParams.
  rewrite split_comma_app, !at_index_app by lia. reflexivity.
Qed.

Lemma parseStateParams_ignores_trailing_fields_witness :
  parseStateParams ("10,0,1,0,0,0,0,6" ++ String "," "192.168.0.2:x,,9")%string
    = parseStateParams "10,0,1,0,0,0,0,6".
Proof.
  apply parseStateParams_ignores_trailing_fields. simpl. lia.
Defined.

(** X6: every target temperature the decoder reports is a supported value:
    the mapper returns it as it is. *)
Theorem decoded_temperature_is_supported (line : string) (t : number) :
  targetTemperature (parseStateParams line) = Some t ->
  parseTargetTemperatureToRange t = Some t /\ truthy (Some t) = true.
Proof.
  intros H. pose proof (decoded_supported line) as Hs.
  unfold supported_state in Hs. rewrite H in Hs. destruct Hs as (k & Hk & ->).
  split.
  - apply (mapper_result_fixed k); [assumption|].
    rewrite strict_eq_of_Z. apply Z.eqb_refl.
  - rewrite truthy_of_Z. apply negb_true_iff, Z.eqb_neq. lia.
Qed.

Lemma decoded_temperature_is_supported_witness :
  parseTargetTemperatureToRange (of_Z 45) = Some (of_Z 45) /\
  truthy (Some (of_Z 45)) = true.
Proof.
  apply (decoded_temperature_is_supported "11,0,0,0,0,0,0,13,0"). reflexivity.
Defined.

(** ** What the controller does to the world *)

Section ControllerEffects.

Context {Device : Type} (http_get : string -> Device -> response * Device).

Local Abbreviation getState := (getState Device http_get).
Local Abbreviation pressButton := (pressButton Device http_get).
Local Abbreviation setPowerState := (setPowerState Device http_get).
Local Abbreviation setTargetTemperature := (setTargetTemperature Device http_get).
Local Abbreviation try_block := (try_block Device http_get).
Local Abbreviation after_request := (after_request Device).

Lemma effect_refl (w : World Device) : controller_effect w w.
Proof.
  exists []. split; [now rewrite app_nil_r|]. split; [constructor|now left].
Qed.

Lemma effect_trans (w1 w2 w3 : World Device) :
  controller_effect w1 w2 -> controller_effect w2 w3 -> controller_effect w1 w3.
Proof.
  intros (n1 & Hr1 & Ha1 & Hc1) (n2 & Hr2 & Ha2 & Hc2).
  exists (n1 ++ n2). split; [now rewrite Hr2, Hr1, app_assoc|].
  split; [now apply Forall_app|].
  destruct Hc2 as [Hc2|Hc2]; [|now right].
  rewrite Hc2. exact Hc1.
Qed.

Lemma effect_request (w : World Device) (url : string) (d : Device)
    (cache : option RinnaiState) :
  read_or_step url ->
  cache = lastState w \/ (exists body, cache = Some (parseStateParams body)) ->
  controller_effect w (after_request w url d cache).
Proof.
  intros Hurl Hcache. exists [url]. split; [reflexivity|].
  split; [constructor; [exact Hurl|constructor]|exact Hcache].
Qed.

Lemma operation_is_step (desired current : maybe_number) :
  read_or_step (operation desired current).
Proof.
  unfold operation, read_or_step.
  destruct (gt_undef current desired); auto.
Qed.

Lemma try_block_known_effect (target : number) (last : maybe_number) (w : World Device) :
  truthy (parseTargetTemperatureToRange target) = true ->
  truthy last = true ->
  controller_effect w (snd (try_block target last w)).
Proof.
  intros Hd Hl. rewrite try_block_known by assumption.
  destruct (strict_eq_undef (parseTargetTemperatureToRange target) last);
    [apply effect_refl|].
  cbv zeta.
  destruct (http_get _ (device w)) as [[|body] d]; cbn [snd];
    apply effect_request; try apply operation_is_step; [now left|right; now exists body].
Qed.

Lemma try_block_effect (target : number) (last : maybe_number) (w : World Device) :
  controller_effect w (snd (try_block target last w)).
Proof.
  destruct (truthy (parseTargetTemperatureToRange target)) eqn:Hd.
  2: { rewrite try_block_unmappable by assumption. apply effect_refl. }
  destruct (truthy last) eqn:Hl; [now apply try_block_known_effect|].
  rewrite try_block_read by assumption.
  rewrite getState_fetch by now right.
  assert (Hread : read_or_step "tela_") by (now left).
  destruct (http_get "tela_" (device w)) as [[|body] d].
  - cbn [snd]. apply effect_request; [exact Hread|now left].
  - set (w1 := after_request w "tela_" d (Some (parseStateParams body))).
    assert (H1 : controller_effect w w1).
    { apply effect_request; [exact Hread|right; now exists body]. }
    destruct (truthy (targetTemperature (parseStateParams body))) eqn:Ht;
      [|exact H1].
    apply (effect_trans w w1); [exact H1|].
    now apply try_block_known_effect.
Qed.

Lemma setTargetTemperature_effect (fuel : nat) (target : number) (retries : Z)
    (last : maybe_number) (w : World Device) :
  controller_effect w (snd (setTargetTemperature fuel target retries last w)).
Proof.
  revert retries last w.
  induction fuel as [|fuel IH]; intros retries last w; [apply effect_refl|].
  rewrite setTargetTemperature_frame.
  pose proof (try_block_effect target last w) as Htry.
  destruct (try_block target last w) as [[[st|cur]|e|] w1]; cbn [snd] in *.
  - exact Htry.
  - apply (effect_trans w w1); [exact Htry|apply IH].
  - destruct (retries <? 5); [|exact Htry].
    apply (effect_trans w w1); [exact Htry|apply IH].
  - exact Htry.
Qed.

Lemma read_or_step_not_lig (new : list string) :
  Forall read_or_step new -> count_requests "/lig" new = 0%nat.
Proof.
  intros H. unfold count_requests. apply count_occ_not_In.
  intros Hin. rewrite Forall_forall in H. specialize (H _ Hin).
  destruct H as [H|[H|H]]; discriminate.
Qed.

(** X8: whatever the heater answers and however the call ends,
    [setTargetTemperature] only ever requests [tela_], [inc] and [dec]; it
    never asks the heater to toggle its power. *)
Theorem setTargetTemperature_requests_only_read_or_step
    (fuel : nat) (target : number) (retries : Z) (last : maybe_number)
    (w : World Device) :
  exists new : list string,
    requests (snd (setTargetTemperature fuel target retries last w))
      = requests w ++ new /\
    Forall read_or_step new /\
    count_requests "/lig" new = 0%nat.
Proof.
  destruct (setTargetTemperature_effect fuel target retries last w)
    as (new & Hreq & Hall & _).
  exists new. split; [exact Hreq|]. split; [exact Hall|].
  now apply read_or_step_not_lig.
Qed.

(** *** The cache *)

Lemma effect_cache_ok (w w' : World Device) :
  controller_effect w w' -> cache_ok w -> cache_ok w'.
Proof.
  intros (_ & _ & _ & [Hc|(body & Hc)]) Hok; unfold cache_ok in *; rewrite Hc.
  - exact Hok.
  - apply decoded_supported.
Qed.

Lemma after_request_cache_ok (w : World Device) (url : string) (d : Device)
    (cache : option RinnaiState) :
  cache = lastState w \/ (exists body, cache = Some (parseStateParams body)) ->
  cache_ok w -> cache_ok (after_request w url d cache).
Proof.
  intros [->|(body & ->)] Hok; unfold cache_ok; cbn [lastState RinnaiApi.after_request].
  - exact Hok.
  - apply decoded_supported.
Qed.

Lemma getState_cache_ok (ignoreCache : bool) (w : World Device) :
  cache_ok w -> cache_ok (snd (getState ignoreCache w)).
Proof.
  intros Hok.
  destruct (getState_cases http_get ignoreCache w)
    as [(st & -> & _)|[(d & _ & ->)|(body & d & _ & ->)]]; cbn [snd].
  - exact Hok.
  - apply after_request_cache_ok; [now left|exact Hok].
  - apply after_request_cache_ok; [right; now exists body|exact Hok].
Qed.

Lemma pressButton_cache_ok (button : string) (w : World Device) :
  cache_ok w -> cache_ok (snd (pressButton button w)).
Proof.
  intros Hok. unfold RinnaiApi.pressButton, bind. rewrite rinnaiApi_run.
  destruct (http_get button (device w)) as [[|body] d]; cbn [snd].
  - apply after_request_cache_ok; [now left|exact Hok].
  - unfold cache_ok. cbn. apply decoded_supported.
Qed.

Lemma setPowerState_cache_ok (turnOn : bool) (w : World Device) :
  cache_ok w -> cache_ok (snd (setPowerState turnOn w)).
Proof.
  intros Hok. rewrite setPowerState_run.
  pose proof (getState_cache_ok false w Hok) as H1.
  destruct (getState false w) as [[st|e|] w1]; cbn [snd] in *; try exact H1.
  destruct (Bool.eqb (isPoweredOn st) turnOn); [exact H1|].
  destruct (http_get "/lig" (device w1)) as [[|body] d]; cbn [snd].
  - apply after_request_cache_ok; [now left|exact H1].
  - apply after_request_cache_ok; [right; now exists body|exact H1].
Qed.

(** X9: the cache only ever holds supported states: if its target
    temperature is absent or one of 35..45 before [getState], [pressButton],
    [setPowerState] or [setTargetTemperature] runs, it is so afterwards,
    however the operation ends; and a state that [getState] or
    [setTargetTemperature] resolves with is such a state. *)
Theorem cache_stays_supported (w : World Device) :
  cache_ok w ->
  (forall ignoreCache, cache_ok (snd (getState ignoreCache w))) /\
  (forall button, cache_ok (snd (pressButton button w))) /\
  (forall turnOn, cache_ok (snd (setPowerState turnOn w))) /\
  (forall fuel target retries last,
     cache_ok (snd (setTargetTemperature fuel target retries last w))) /\
  (forall ignoreCache st w',
     getState ignoreCache w = (Resolved st, w') -> supported_state st) /\
  (forall fuel target retries last st w',
     setTargetTemperature fuel target retries last w = (Resolved (Some st), w') ->
     supported_state st).
Proof.
  intros Hok.
  split; [intros; now apply getState_cache_ok|].
  split; [intros; now apply pressButton_cache_ok|].
  split; [intros; now apply setPowerState_cache_ok|].
  split; [intros; apply (effect_cache_ok w); [apply setTargetTemperature_effect|exact Hok]|].
  split.
  - intros ic st w' Hrun.
    pose proof (getState_cache_ok ic w Hok) as H. rewrite Hrun in H. cbn [snd] in H.
    unfold cache_ok in H. now rewrite (getState_resolved http_get ic w w' st Hrun) in H.
  - intros fuel target retries last st w' Hrun.
    pose proof (effect_cache_ok w _ (setTargetTemperature_effect fuel target retries last w) Hok)
      as H.
    rewrite Hrun in H. cbn [snd] in H. unfold cache_ok in H.
    now rewrite (setTargetTemperature_resolved http_get fuel target retries last w w' _ Hrun) in H.
Qed.

End ControllerEffects.

Lemma cache_stays_supported_witness :
  cache_ok (snd (getState heater heater_get true (boot (heater_at 14)))) /\
  cache_ok (snd (setTargetTemperature heater heater_get 4 (of_Z 60) 0 None
                   (boot (heater_at 12)))).
Proof.
  assert (Hboot : forall i, cache_ok (boot (heater_at i))) by (intros i; exact I).
  split.
  - apply (proj1 (cache_stays_supported heater_get _ (Hboot 14))).
  - apply (proj1 (proj2 (proj2 (proj2
             (cache_stays_supported heater_get _ (Hboot 12)))))).
Defined.

(** ** Calls that have nothing to do, and calls that never end *)

Section ControllerRuns.

Context {Device : Type} (http_get : string -> Device -> response * Device).

Local Abbreviation setTargetTemperature := (setTargetTemperature Device http_get).
Local Abbreviation try_block := (try_block Device http_get).
Local Abbreviation after_request := (after_request Device).

Lemma strict_eq_sym (a b : number) : strict_eq a b = strict_eq b a.
Proof.
  destruct a as [| |p|], b as [| |q|]; try reflexivity. simpl.
  destruct (Qeq_bool p q) eqn:E.
  - symmetry. apply Qeq_bool_iff. symmetry. now apply Qeq_bool_iff.
  - symmetry. apply Qeq_bool_false. intros H. apply Qeq_bool_neq in E.
    apply E. now symmetry.
Qed.

Lemma desired_equal_truthy (target : number) (current : maybe_number) :
  strict_eq_undef (parseTargetTemperatureToRange target) current = true ->
  truthy (parseTargetTemperatureToRange target) = true /\ truthy current = true.
Proof.
  intros H.
  destruct (parseTargetTemperatureToRange target) as [y|] eqn:Hmap; [|discriminate].
  destruct current as [c|]; [|discriminate]. cbn [strict_eq_undef] in H.
  assert (Hx : target <> NaN) by (intros ->; discriminate).
  destruct (mapper_not_NaN target Hx) as (k & y' & Hk & Hmap' & Hy).
  rewrite Hmap in Hmap'. inversion Hmap'; subst y'.
  split; [apply (truthy_via y k Hy); lia|].
  apply (truthy_via c k); [|lia].
  destruct (strict_eq_Finite y k Hy) as (q & -> & Hq).
  destruct c as [| |q'|]; try discriminate.
  simpl in *. apply Qeq_bool_iff in H. apply Qeq_bool_true.
  now rewrite <- H.
Qed.

Lemma already_there_known (fuel : nat) (target : number) (retries : Z)
    (last : maybe_number) (w : World Device) :
  strict_eq_undef (parseTargetTemperatureToRange target) last = true ->
  setTargetTemperature (S fuel) target retries last w = (Resolved (lastState w), w).
Proof.
  intros H. destruct (desired_equal_truthy target last H) as [Hd Hl].
  rewrite setTargetTemperature_frame, try_block_known by assumption.
  now rewrite H.
Qed.

Lemma already_there_read (fuel : nat) (target : number) (retries : Z)
    (last : maybe_number) (w : World Device) (body : string) (d : Device) :
  truthy last = false ->
  http_get "tela_" (device w) = (Data body, d) ->
  strict_eq_undef (parseTargetTemperatureToRange target)
    (targetTemperature (parseStateParams body)) = true ->
  setTargetTemperature (S fuel) target retries last w =
    (Resolved (Some (parseStateParams body)),
     after_request w "tela_" d (Some (parseStateParams body))).
Proof.
  intros Hl Hget H. destruct (desired_equal_truthy target _ H) as [Hd Ht].
  rewrite setTargetTemperature_frame, try_block_read by assumption.
  rewrite getState_fetch by now right.
  rewrite Hget, Ht, try_block_known by assumption.
  now rewrite H.
Qed.

(** X7: a request for the temperature the heater already has makes no step.
    On a first call the forced read is the only request and its state is
    returned; on a call that carries a [lastTargetTemp] equal to the mapped
    target nothing is requested at all and the cache is returned as it is,
    empty or not. *)
Theorem setTargetTemperature_already_there
    (fuel : nat) (target : number) (retries : Z) (w : World Device) :
  (forall (last : maybe_number) (body : string) (d : Device),
     truthy last = false ->
     http_get "tela_" (device w) = (Data body, d) ->
     strict_eq_undef (parseTargetTemperatureToRange target)
       (targetTemperature (parseStateParams body)) = true ->
     setTargetTemperature (S fuel) target retries last w =
       (Resolved (Some (parseStateParams body)),
        after_request w "tela_" d (Some (parseStateParams body)))) /\
  (forall last : maybe_number,
     strict_eq_undef (parseTargetTemperatureToRange target) last = true ->
     setTargetTemperature (S fuel) target retries last w = (Resolved (lastState w), w)).
Proof.
  split.
  - intros last body d. apply already_there_read.
  - intros last. apply already_there_known.
Qed.

(** *** A heater that does not move *)



(** X11: on a unit-step heater a request for any finite number ends at the
    floor of that number brought into 35..45: out-of-range requests drive
    the heater to 35 or 45 and fractional ones to the degree below. *)
Theorem setTargetTemperature_converges_to_clamp_floor
    (temp : Device -> Z) (q : Q) (w : World Device) (fuel : nat) :
  unit_step_heater http_get temp ->
  35 <= temp (device w) <= 45 ->
  let desired := Z.max 35 (Z.min 45 (Qfloor q)) in
  let steps := Z.to_nat (Z.abs (desired - temp (device w))) in
  (Nat.max 1 steps <= fuel)%nat ->
  exists (st : RinnaiState) (w' : World Device),
    setTargetTemperature fuel (Finite q) 0 None w = (Resolved (Some st), w') /\
    targetTemperature st = Some (of_Z desired) /\
    requests w' = requests w
      ++ "tela_" :: repeat (if desired <? temp (device w) then "dec" else "inc") steps.
Proof.
  intros Hheater Hr desired steps Hfuel.
  destruct (mapper_clamp_floor q) as (y & Hmap & Hy).
  destruct (converge http_get temp Hheater (Finite q) y desired Hmap Hy w fuel Hr Hfuel)
    as (st & w' & Hrun & Hst & Hreq).
  exists st, w'. repeat split; assumption.
Qed.

End ControllerRuns.

Lemma setTargetTemperature_already_there_witness :
  setTargetTemperature heater heater_get 1 (Finite (75 # 2)) 5 None (boot (heater_at 5)) =
    (Resolved (Some (parseStateParams (line (heater_at 5)))),
     after_request heater (boot (heater_at 5)) "tela_" (heater_at 5)
       (Some (parseStateParams (line (heater_at 5))))) /\
  setTargetTemperature heater heater_get 1 (Finite (75 # 2)) 5 (Some (of_Z 37))
    (boot (heater_at 9)) = (Resolved None, boot (heater_at 9)).
Proof.
  split.
  - apply (proj1 (setTargetTemperature_already_there heater_get 0 (Finite (75 # 2)) 5
                    (boot (heater_at 5)))); reflexivity.
  - apply (proj2 (setTargetTemperature_already_there heater_get 0 (Finite (75 # 2)) 5
                    (boot (heater_at 9)))); reflexivity.
Defined.


Lemma setTargetTemperature_converges_to_clamp_floor_witness :
  exists (st : RinnaiState) (w' : World heater),
    setTargetTemperature heater heater_get 2 (Finite (601 # 10)) 0 None
      (boot (heater_at 11)) = (Resolved (Some st), w') /\
    targetTemperature st = Some (of_Z 45) /\
    requests w' = requests (boot (heater_at 11)) ++ ["tela_"; "inc"; "inc"].
Proof.
  apply (setTargetTemperature_converges_to_clamp_floor heater_get
           (fun h => index h + 32) (601 # 10) (boot (heater_at 11)) 2).
  - exact heater_unit_step.
  - simpl. lia.
  - simpl. lia.
Defined.

(** ** The accessory *)

Section AccessoryFacts.

Context {Device : Type} (http_get : string -> Device -> response * Device).
Context {hap : Type} (ACTIVE INACTIVE HEAT OFF : hap).

Local Abbreviation getState := (getState Device http_get).
Local Abbreviation after_request := (after_request Device).
Local Abbreviation poll_once := (poll_once Device http_get hap ACTIVE INACTIVE).
Local Abbreviation pollForStateUpdates :=
  (pollForStateUpdates Device http_get hap ACTIVE INACTIVE).
Local Abbreviation getCurrentActiveState := (getCurrentActiveState hap ACTIVE INACTIVE).
Local Abbreviation handleCurrentTemperatureGet :=
  (handleCurrentTemperatureGet Device http_get).
Local Abbreviation handleCurrentHeatingState :=
  (handleCurrentHeatingState Device http_get hap HEAT OFF).

Lemma poll_once_run (a : accessory hap) (w : World Device) :
  poll_once a w =
    match http_get "tela_" (device w) with
    | (Failure, d) => (a, after_request w "tela_" d (lastState w))
    | (Data body, d) =>
        let newState := parseStateParams body in
        ({| currentState := Some newState;
            active_updates :=
              match currentState a with
              | None => active_updates a ++ [getCurrentActiveState newState]
              | Some current =>
                  if negb (Bool.eqb (isHeating newState) (isHeating current))
                  then active_updates a ++ [getCurrentActiveState newState]
                  else active_updates a
              end |},
         after_request w "tela_" d (Some newState))
    end.
Proof.
  unfold PlatformAccessory.poll_once. rewrite getState_fetch by now right.
  destruct (http_get "tela_" (device w)) as [[|body] d]; reflexivity.
Qed.

Lemma poll_once_requests (a : accessory hap) (w : World Device) :
  requests (snd (poll_once a w)) = requests w ++ ["tela_"].
Proof.
  rewrite poll_once_run.
  destruct (http_get "tela_" (device w)) as [[|body] d]; reflexivity.
Qed.

(** X12: polling asks the heater exactly once per pass, whatever the heater
    answers and whatever is cached: [n] passes add [n] requests [tela_]. *)
Theorem pollForStateUpdates_requests (n : nat) (a : accessory hap) (w : World Device) :
  requests (snd (pollForStateUpdates n a w)) = requests w ++ repeat "tela_" n.
Proof.
  revert a w. induction n as [|n IH]; intros a w.
  - simpl. now rewrite app_nil_r.
  - cbn [PlatformAccessory.pollForStateUpdates].
    pose proof (poll_once_requests a w) as H1.
    destruct (poll_once a w) as [a1 w1]. cbn [snd] in H1.
    rewrite IH, H1. apply repeat_cons_app.
Qed.

(** Once the accessory holds a state with heating flag [h] and has pushed
    the one value of that flag, passes that read the same flag change
    neither. *)
Lemma poll_once_pushed (h : bool) (a : accessory hap) (w : World Device) :
  constant_heating http_get h ->
  (exists st, currentState a = Some st /\ isHeating st = h /\
     active_updates a = [if h then ACTIVE else INACTIVE]) ->
  exists st, currentState (fst (poll_once a w)) = Some st /\ isHeating st = h /\
    active_updates (fst (poll_once a w)) = [if h then ACTIVE else INACTIVE].
Proof.
  intros Hconst (st & Hc & Hst & Hu). rewrite poll_once_run.
  destruct (http_get "tela_" (device w)) as [[|body] d] eqn:Hget; cbn [fst].
  - now exists st.
  - exists (parseStateParams body).
    pose proof (Hconst _ _ _ Hget) as Hh.
    split; [reflexivity|]. split; [exact Hh|]. cbn [active_updates].
    now rewrite Hc, Hu, Hh, Hst, Bool.eqb_reflx.
Qed.

Lemma poll_pushed (h : bool) (n : nat) :
  constant_heating http_get h ->
  forall (a : accessory hap) (w : World Device),
    (exists st, currentState a = Some st /\ isHeating st = h /\
       active_updates a = [if h then ACTIVE else INACTIVE]) ->
    exists st, currentState (fst (pollForStateUpdates n a w)) = Some st /\
      isHeating st = h /\
      active_updates (fst (pollForStateUpdates n a w)) = [if h then ACTIVE else INACTIVE].
Proof.
  intros Hconst. induction n as [|n IH]; intros a w Hinv; [exact Hinv|].
  cbn [PlatformAccessory.pollForStateUpdates].
  pose proof (poll_once_pushed h a w Hconst Hinv) as H1.
  destruct (poll_once a w) as [a1 w1]. cbn [fst] in H1.
  now apply IH.
Qed.

Lemma poll_fresh (h : bool) (n : nat) :
  constant_heating http_get h ->
  forall (a : accessory hap) (w : World Device),
    currentState a = None -> active_updates a = [] ->
    if read_answered_within http_get n (device w)
    then exists st, currentState (fst (pollForStateUpdates n a w)) = Some st /\
           isHeating st = h /\
           active_updates (fst (pollForStateUpdates n a w))
             = [if h then ACTIVE else INACTIVE]
    else currentState (fst (pollForStateUpdates n a w)) = None /\
         active_updates (fst (pollForStateUpdates n a w)) = [].
Proof.
  intros Hconst. induction n as [|n IH]; intros a w Hc Hu; [now split|].
  cbn [PlatformAccessory.pollForStateUpdates read_answered_within].
  pose proof (poll_once_run a w) as Hrun.
  destruct (http_get "tela_" (device w)) as [[|body] d] eqn:Hget.
  - rewrite Hrun. specialize (IH a (after_request w "tela_" d (lastState w)) Hc Hu).
    exact IH.
  - rewrite Hrun. cbv zeta.
    apply (poll_pushed h n Hconst).
    exists (parseStateParams body).
    pose proof (Hconst _ _ _ Hget) as Hh.
    split; [reflexivity|]. split; [exact Hh|]. cbn [active_updates].
    rewrite Hc, Hu. unfold PlatformAccessory.getCurrentActiveState. now rewrite Hh.
Qed.

(** X13: while the heater reports the same heating flag on every read it
    answers, a fresh accessory pushes the [Active] characteristic exactly
    once: as long as none of the reads so far was answered it holds no state
    and has pushed nothing, and once a read has been answered it holds a
    state and has pushed exactly one value, the one of that flag, however
    many passes follow. *)
Theorem pollForStateUpdates_pushes_once (h : bool) (n : nat) (w : World Device) :
  constant_heating http_get h ->
  let a' := fst (pollForStateUpdates n new_accessory w) in
  if read_answered_within http_get n (device w)
  then exists st, currentState a' = Some st /\ isHeating st = h /\
         active_updates a' = [if h then ACTIVE else INACTIVE]
  else currentState a' = None /\ active_updates a' = [].
Proof.
  intros Hconst. cbv zeta. now apply (poll_fresh h n Hconst).
Qed.

(** X14: after a pass of the poll that the heater answered, the accessory
    holds the decoded answer, and the handlers of the temperature and of the
    heating state answer from it without a request to the heater. *)
Theorem poll_then_handlers (a : accessory hap) (w : World Device)
    (body : string) (d : Device) :
  http_get "tela_" (device w) = (Data body, d) ->
  let st := parseStateParams body in
  let a' := fst (poll_once a w) in
  let w' := snd (poll_once a w) in
  currentState a' = Some st /\
  lastState w' = Some st /\
  handleCurrentTemperatureGet w' = (Resolved (targetTemperature st), w') /\
  handleCurrentHeatingState w' = (Resolved (if isHeating st then HEAT else OFF), w').
Proof.
  intros Hget st a' w'. subst a' w'. rewrite poll_once_run, Hget. cbn [fst snd].
  fold st. split; [reflexivity|]. split; [reflexivity|].
  unfold PlatformAccessory.handleCurrentTemperatureGet,
    PlatformAccessory.handleCurrentHeatingState, bind.
  rewrite (getState_hit http_get _ st) by reflexivity.
  split; reflexivity.
Qed.

(** X15: with a supported cache, the value [handleCurrentTemperatureGet]
    resolves with is absent or one of 35..45, the bounds the constructor
    gives the temperature characteristics; on a cache hit no request is
    made. *)
Theorem handleCurrentTemperatureGet_range (w w' : World Device) (v : maybe_number) :
  cache_ok w ->
  handleCurrentTemperatureGet w = (Resolved v, w') ->
  (v = None \/ exists k : Z, 35 <= k <= 45 /\ v = Some (of_Z k)) /\
  (lastState w <> None -> w' = w).
Proof.
  intros Hok Hrun.
  unfold PlatformAccessory.handleCurrentTemperatureGet, bind in Hrun.
  destruct (getState_cases http_get false w)
    as [(st & E & Hc)|[(d & _ & E)|(body & d & Hget & E)]];
    rewrite E in Hrun; unfold ret in Hrun; try discriminate;
    match type of Hrun with
    | (Resolved ?t, ?w1) = _ =>
        assert (Hv : v = t) by congruence; assert (Hw : w' = w1) by congruence
    end; subst v w'; clear Hrun.
  - split; [|reflexivity].
    unfold cache_ok in Hok. rewrite Hc in Hok. unfold supported_state in Hok.
    destruct (targetTemperature st) as [t|]; [|now left].
    right. destruct Hok as (k & Hk & ->). now exists k.
  - split.
    + pose proof (decoded_supported body) as Hs. unfold supported_state in Hs.
      destruct (targetTemperature (parseStateParams body)) as [t|]; [|now left].
      right. destruct Hs as (k & Hk & ->). now exists k.
    + intros Hne. exfalso.
      destruct (lastState w) as [st|] eqn:Hc; [|now apply Hne].
      rewrite (getState_hit http_get w st Hc) in E.
      pose proof (f_equal (fun r => requests (snd r)) E) as Hreq.
      cbn [snd requests RinnaiApi.after_request] in Hreq.
      apply (f_equal (@List.length string)) in Hreq.
      rewrite length_app in Hreq. simpl in Hreq. lia.
Qed.

End AccessoryFacts.

Example poll_three_passes :
  pollForStateUpdates _ flaky_get Z 1 0 3 new_accessory
    (boot (1%nat, {| index := 5; power := true; heating := true |})) =
    ({| currentState := Some {| targetTemperature := Some (of_Z 37);
                                isHeating := true; isPoweredOn := true |};
        active_updates := [1] |},
     {| lastState := Some {| targetTemperature := Some (of_Z 37);
                             isHeating := true; isPoweredOn := true |};
        device := (0%nat, {| index := 5; power := true; heating := true |});
        requests := ["tela_"; "tela_"; "tela_"] |}).
Proof. vm_compute. reflexivity. Qed.

Lemma pollForStateUpdates_pushes_once_witness :
  let a' := fst (pollForStateUpdates unit (canned_get "10,0,1,0,0,0,0,5,0") Z 1 0 4
                   new_accessory (boot tt)) in
  if read_answered_within (canned_get "10,0,1,0,0,0,0,5,0") 4 (device (boot tt))
  then exists st, currentState a' = Some st /\ isHeating st = true /\
         active_updates a' = [if true then 1 else 0]
  else currentState a' = None /\ active_updates a' = [].
Proof.
  apply (pollForStateUpdates_pushes_once (canned_get "10,0,1,0,0,0,0,5,0") 1 0 true 4
           (boot tt)).
  intros d d' body H. vm_compute in H. inversion H. reflexivity.
Defined.

Lemma poll_then_handlers_witness :
  let st := parseStateParams (line (heater_at 9)) in
  let a' := fst (poll_once heater heater_get Z 1 0 new_accessory (boot (heater_at 9))) in
  let w' := snd (poll_once heater heater_get Z 1 0 new_accessory (boot (heater_at 9))) in
  currentState a' = Some st /\
  lastState w' = Some st /\
  handleCurrentTemperatureGet heater heater_get w' = (Resolved (targetTemperature st), w') /\
  handleCurrentHeatingState heater heater_get Z 1 0 w'
    = (Resolved (if isHeating st then 1 else 0), w').
Proof.
  apply (poll_then_handlers heater_get 1 0 1 0 new_accessory (boot (heater_at 9))
           (line (heater_at 9)) (heater_at 9)).
  reflexivity.
Defined.

Lemma handleCurrentTemperatureGet_range_witness :
  (Some (of_Z 41) = None \/ exists k : Z, 35 <= k <= 45 /\ Some (of_Z 41) = Some (of_Z k)) /\
  (lastState (boot (heater_at 9)) <> None ->
   snd (handleCurrentTemperatureGet heater heater_get (boot (heater_at 9)))
     = boot (heater_at 9)).
Proof.
  apply (handleCurrentTemperatureGet_range heater_get (boot (heater_at 9))).
  - exact I.
  - reflexivity.
Defined.
